(** * drf_ecommerce: soft-delete models and the shop views

    A shallow embedding of [apps/common/models.py] and of the cart,
    checkout and review views of [apps/shop/views.py].

    A database table is a finite map from primary keys to rows; a
    queryset is the WHERE clause it stands for (querysets are lazy: the
    clause is evaluated against the table each time the queryset is
    used); view code is a state-and-exception computation over the
    tables.  The wall clock ([timezone.now]) and the UUID generator
    ([uuid.uuid4]) are inputs of every operation that reads them. *)

From stdpp Require Import gmap strings list fin_maps sorting.
From Stdlib Require Import ZArith.

Local Open Scope Z_scope.

(** ** Values *)

(** [models.UUIDField]: a 128-bit number, compared as such by the
    database.  A [uuid.UUID] object is always truthy in Python. *)
Abbreviation UUID := N (only parsing).

(** [models.DateTimeField]: a point in time. *)
Abbreviation datetime := Z (only parsing).

(** ** Exceptions and computations *)

Inductive Exception : Type :=
  | DoesNotExist
  | MultipleObjectsReturned
  | IntegrityError
  | DatabaseError
  | ValidationError
  | AttributeError (name : string)
  | UnboundLocalError (name : string).

#[global] Instance Exception_eq_dec : EqDecision Exception.
Proof. solve_decision. Defined.

Inductive Result (A : Type) : Type :=
  | Return (a : A)
  | Raise (e : Exception).
Arguments Return {A} a.
Arguments Raise {A} e.

(** A computation over a store [S]: it ends with a value or an
    exception, and in both cases leaves the store as written so far
    (Django runs in autocommit mode: nothing is rolled back). *)
Definition M (S A : Type) : Type := S → Result A * S.

Definition ret {S A} (a : A) : M S A := λ s, (Return a, s).

Definition raise {S A} (e : Exception) : M S A := λ s, (Raise e, s).

Definition bind {S A B} (m : M S A) (k : A → M S B) : M S B :=
  λ s, match m s with
       | (Return a, s') => k a s'
       | (Raise e, s') => (Raise e, s')
       end.

Notation "'let*' x ':=' m 'in' k" := (bind m (λ x, k))
  (at level 10, x pattern, m at level 100, k at level 200, only parsing).

(** [try: x = m / except caught: return handler], then [k x]; any
    other exception propagates. *)
Definition try_except {S A B} (m : M S A) (caught : Exception) (handler : M S B)
    (k : A → M S B) : M S B :=
  λ s, match m s with
       | (Return a, s') => k a s'
       | (Raise e, s') =>
           if bool_decide (e = caught) then handler s' else (Raise e, s')
       end.

(** Run a computation on a component of the store. *)
Definition zoom {S T A} (get : S → T) (set : T → S → S) (m : M T A) : M S A :=
  λ s, let '(r, t) := m (get s) in (r, set t s).

(** ** Models *)

(** [BaseModel]: the primary key [id] is the key of the row in its
    table; the other columns are the two timestamps and the fields [F]
    a concrete model adds. *)
Record BaseModel (F : Type) : Type := mkBaseModel {
  created_at : datetime;
  updated_at : datetime;
  fields : F
}.
Arguments mkBaseModel {F} _ _ _.
Arguments created_at {F} _.
Arguments updated_at {F} _.
Arguments fields {F} _.

(** A model instance in memory: its [id] and its columns. *)
Abbreviation Instance F := (UUID * BaseModel F)%type (only parsing).

Definition set_fields {F} (f : F → F) (r : BaseModel F) : BaseModel F :=
  mkBaseModel (created_at r) (updated_at r) (f (fields r)).

Definition set_updated_at {F} (t : datetime) (r : BaseModel F) : BaseModel F :=
  mkBaseModel (created_at r) t (fields r).

(** The write statements a table has executed, with the primary keys
    of the rows each one touched. *)
Inductive Statement : Type :=
  | INSERT (pk : UUID)
  | UPDATE (pks : list UUID)
  | DELETE (pks : list UUID).

Record Table (F : Type) : Type := mkTable {
  rows : gmap N (BaseModel F);
  journal : list Statement
}.
Arguments mkTable {F} _ _.
Arguments rows {F} _.
Arguments journal {F} _.

Definition empty_table {F} : Table F := mkTable ∅ [].

(** ** The ORM operations the code calls *)

Section ORM.
Context {F : Type}.

(** A queryset is its WHERE clause. *)
Definition QuerySet : Type := Instance F → bool.

(** [Model.objects.all()] of a manager that does not filter. *)
Definition all : QuerySet := λ _, true.

(** [qs.filter(...)]. *)
Definition filter_ (qs : QuerySet) (cond : Instance F → bool) : QuerySet :=
  λ x, qs x && cond x.

(** The rows a queryset selects at this moment. *)
Definition evaluate (qs : QuerySet) (t : Table F) : gmap N (BaseModel F) :=
  filter (λ x, Is_true (qs x)) (rows t).

(** [qs.exists()]. *)
Definition exists_ (qs : QuerySet) : M (Table F) bool :=
  λ t, (Return (bool_decide (evaluate qs t ≠ ∅)), t).

(** [qs.get()]: the single selected row. *)
Definition get (qs : QuerySet) : M (Table F) (Instance F) :=
  λ t, match map_to_list (evaluate qs t) with
       | [] => (Raise DoesNotExist, t)
       | [x] => (Return x, t)
       | _ :: _ :: _ => (Raise MultipleObjectsReturned, t)
       end.

(** Modelled from the spec: [apps/common/managers.py]
    ([GetOrNoneQuerySet.get_or_none]) is not among the sources; the
    spec describes it as the lookup that returns the matching entity
    or the not-found sentinel and never raises for absence. *)
Definition get_or_none (qs : QuerySet) : M (Table F) (option (Instance F)) :=
  λ t, match get qs t with
       | (Return x, t') => (Return (Some x), t')
       | (Raise DoesNotExist, t') => (Return None, t')
       | (Raise e, t') => (Raise e, t')
       end.

(** [Model.objects.create(...)]: [id] defaults to [uuid4()],
    both timestamps are set to the current time; a primary key that
    is already taken is refused by the database. *)
Definition create (pk : UUID) (now : datetime) (f : F) : M (Table F) (Instance F) :=
  λ t, match rows t !! pk with
       | Some _ => (Raise IntegrityError, t)
       | None =>
           let r := mkBaseModel now now f in
           (Return (pk, r), mkTable (<[pk := r]> (rows t)) (journal t ++ [INSERT pk]))
       end.

(** [obj.save(update_fields=[...])]: [write mem row] copies the listed
    fields of the instance into its row; Django raises when no row
    has the instance's primary key. *)
Definition save_update_fields (write : BaseModel F → BaseModel F → BaseModel F)
    (obj : Instance F) : M (Table F) unit :=
  λ t, match rows t !! obj.1 with
       | None => (Raise DatabaseError, t)
       | Some r =>
           (Return (), mkTable (<[obj.1 := write obj.2 r]> (rows t))
                               (journal t ++ [UPDATE [obj.1]]))
       end.

(** [qs.update_or_create(defaults=..., ...)]: [qs] is the lookup
    built from the keyword arguments, [new] the fields of the row to
    create (keyword arguments and defaults), [defaults] the
    assignment of the defaults to an existing row.  On the update
    path Django saves the defaults together with the [auto_now]
    column [updated_at]. *)
Definition update_or_create (qs : QuerySet) (new : F) (defaults : F → F)
    (pk : UUID) (now : datetime) : M (Table F) (Instance F * bool) :=
  λ t, match get qs t with
       | (Return obj, t') =>
           let obj' : Instance F :=
             (obj.1, set_updated_at now (set_fields defaults obj.2)) in
           bind (save_update_fields
                   (λ mem row, set_updated_at (updated_at mem)
                                 (set_fields defaults row)) obj')
                (λ _, ret (obj', false)) t'
       | (Raise DoesNotExist, t') =>
           bind (create pk now new) (λ obj, ret (obj, true)) t'
       | (Raise e, t') => (Raise e, t')
       end.

(** [qs.update(...)]: one UPDATE statement over the selected
    rows; it bypasses [save], so [updated_at] is left alone.  Returns
    the number of rows matched. *)
Definition update (qs : QuerySet) (assign : F → F) : M (Table F) nat :=
  λ t, let sel := evaluate qs t in
       (Return (size sel),
        mkTable (map_imap (λ pk r, Some (if qs (pk, r) then set_fields assign r else r))
                          (rows t))
                (journal t ++ [UPDATE (map_to_list sel).*1])).

(** Django's own [QuerySet.delete()]: the selected rows are removed. *)
Definition QuerySet_delete (qs : QuerySet) : M (Table F) nat :=
  λ t, let sel := evaluate qs t in
       (Return (size sel),
        mkTable (filter (λ x, ¬ Is_true (qs x)) (rows t))
                (journal t ++ [DELETE (map_to_list sel).*1])).

(** Django's own [Model.delete()]: the row of the instance is
    removed. *)
Definition Model_delete (obj : Instance F) : M (Table F) unit :=
  λ t, (Return (), mkTable (delete obj.1 (rows t)) (journal t ++ [DELETE [obj.1]])).

End ORM.

(** ** [apps/common/models.py]: the soft-delete layer *)

(** The two columns [IsDeletedModel] adds to [BaseModel], next to the
    fields [F] of the concrete model. *)
Record IsDeleted (F : Type) : Type := mkIsDeleted {
  is_deleted : bool;
  deleted_at : option datetime;
  own : F
}.
Arguments mkIsDeleted {F} _ _ _.
Arguments is_deleted {F} _.
Arguments deleted_at {F} _.
Arguments own {F} _.

Section IsDeletedModel.
Context {F R : Type}.

(** What Django's deletion collector does to the rows of the related
    models when the row with a given primary key is removed (the
    [on_delete] rules of the foreign keys pointing at this model). *)
Variable on_delete : UUID → R → R.

(** The table of a soft-deletable model and the rows related to it. *)
Record Store : Type := mkStore {
  table : Table (IsDeleted F);
  related : R
}.

Definition with_table (t : Table (IsDeleted F)) (s : Store) : Store :=
  mkStore t (related s).

(** [super().delete()] of a queryset: Django's [QuerySet.delete],
    which removes the selected rows and cascades from each. *)
Definition super_QuerySet_delete (qs : @QuerySet (IsDeleted F)) : M Store nat :=
  λ s, let pks := (map_to_list (evaluate qs (table s))).*1 in
       let '(r, t) := QuerySet_delete qs (table s) in
       (r, mkStore t (foldr on_delete (related s) pks)).

(** [super().delete()] of an instance: Django's [Model.delete]. *)
Definition super_Model_delete (self : Instance (IsDeleted F)) : M Store unit :=
  λ s, let '(r, t) := Model_delete self (table s) in
       (r, mkStore t (on_delete self.1 (related s))).

(** [IsDeletedQuerySet.delete(self, hard_delete=False)]. *)
Definition IsDeletedQuerySet_delete (self : @QuerySet (IsDeleted F))
    (hard_delete : bool) (now : datetime) : M Store nat :=
  if hard_delete then super_QuerySet_delete self
  else zoom table with_table
         (update self (λ f, mkIsDeleted true (Some now) (own f))).

(** [IsDeletedManager.get_queryset]. *)
Definition get_queryset : @QuerySet (IsDeleted F) :=
  filter_ all (λ x, bool_decide (is_deleted (fields x.2) = false)).

(** [IsDeletedManager.unfiltered]. *)
Definition unfiltered : @QuerySet (IsDeleted F) := all.

(** [IsDeletedManager.hard_delete]. *)
Definition IsDeletedManager_hard_delete (now : datetime) : M Store nat :=
  IsDeletedQuerySet_delete unfiltered true now.

(** [IsDeletedModel.delete(self)]: the two attributes are set on the
    instance, and [save(update_fields=["is_deleted", "deleted_at"])]
    writes those two columns.  Returns the instance as mutated. *)
Definition IsDeletedModel_delete (now : datetime) (self : Instance (IsDeleted F))
    : M Store (Instance (IsDeleted F)) :=
  let self := (self.1, set_fields (λ f, mkIsDeleted true (deleted_at f) (own f)) self.2) in
  let self := (self.1, set_fields (λ f, mkIsDeleted (is_deleted f) (Some now) (own f)) self.2) in
  let* _ := zoom table with_table
              (save_update_fields
                 (λ mem, set_fields (λ f, mkIsDeleted (is_deleted (fields mem))
                                                       (deleted_at (fields mem)) (own f)))
                 self) in
  ret self.

(** The row a soft delete leaves behind. *)
Definition soft_deleted (now : datetime) (r : BaseModel (IsDeleted F))
    : BaseModel (IsDeleted F) :=
  set_fields (λ f, mkIsDeleted true (Some now) (own f)) r.

(** [IsDeletedModel.hard_delete(self)]. *)
Definition IsDeletedModel_hard_delete (self : Instance (IsDeleted F)) : M Store unit :=
  super_Model_delete self.

(** [Meta.ordering = ['-id']]: descending primary key. *)
Definition ordering : relation (Instance (IsDeleted F)) := λ x y, (y.1 ≤ x.1)%N.

#[global] Instance ordering_dec : RelDecision ordering :=
  λ x y, decide (y.1 ≤ x.1)%N.

(** Reading a queryset of the model: the selected rows in the order
    of [Meta.ordering]. *)
Definition fetch (qs : @QuerySet (IsDeleted F)) (t : Table (IsDeleted F))
    : list (Instance (IsDeleted F)) :=
  merge_sort ordering (map_to_list (evaluate qs t)).

End IsDeletedModel.

(** ** The models the shop views use

    [apps/profiles/models.py] and [apps/shop/models.py], which declare
    them, are not among the sources.  The spec lists each of the five
    as an entity and none as soft-deletable, so each is a [BaseModel]
    with the plain manager, and deleting one is Django's own delete.
    Users are identified by their primary key. *)

Module Product.
(** Modelled from the spec: the declaration of [Product] is missing;
    the spec gives it a unique slug (its category, seller, price and
    stock are not read by the views below). *)
Record t : Type := mk { slug : string }.
End Product.

Module OrderItem.
(** Modelled from the spec: the declaration of [OrderItem] is missing;
    the spec gives it a user, a product, a quantity and an optional
    order, [None] while the item is in the cart. *)
Record t : Type := mk {
  user : UUID;
  order : option UUID;
  product : UUID;
  quantity : Z
}.
Definition set_quantity (q : Z) (f : t) : t := mk (user f) (order f) (product f) q.
Definition set_order (o : option UUID) (f : t) : t := mk (user f) o (product f) (quantity f).
End OrderItem.

Module ShippingAddress.
(** Modelled from the spec: the declaration of [ShippingAddress] is
    missing; the seven fields are those the checkout reads. *)
Record t : Type := mk {
  full_name : string;
  email : string;
  phone : string;
  address : string;
  city : string;
  country : string;
  zipcode : string
}.
End ShippingAddress.

Module Order.
(** Modelled from the spec: the declaration of [Order] is missing; the
    spec gives it a user and the seven shipping fields (its status
    fields are not written by the views below). *)
Record t : Type := mk {
  user : UUID;
  full_name : option string;
  email : option string;
  phone : option string;
  address : option string;
  city : option string;
  country : option string;
  zipcode : option string
}.
End Order.

Module Review.
(** Modelled from the spec: the declaration of [Review] is missing;
    the spec gives it a user, a product, a rating and a text. *)
Record t : Type := mk {
  user : UUID;
  product : UUID;
  rating : Z;
  text : string
}.
Definition set_defaults (r : Z) (s : string) (f : t) : t := mk (user f) (product f) r s.
End Review.

(** The database: one table per model, under its Django table name. *)
Record DB : Type := mkDB {
  shop_product : Table Product.t;
  profiles_orderitem : Table OrderItem.t;
  profiles_order : Table Order.t;
  profiles_shippingaddress : Table ShippingAddress.t;
  shop_review : Table Review.t
}.

Definition set_shop_product (t : Table Product.t) (s : DB) : DB :=
  mkDB t (profiles_orderitem s) (profiles_order s) (profiles_shippingaddress s) (shop_review s).

Definition set_profiles_orderitem (t : Table OrderItem.t) (s : DB) : DB :=
  mkDB (shop_product s) t (profiles_order s) (profiles_shippingaddress s) (shop_review s).

Definition set_profiles_order (t : Table Order.t) (s : DB) : DB :=
  mkDB (shop_product s) (profiles_orderitem s) t (profiles_shippingaddress s) (shop_review s).

Definition set_profiles_shippingaddress (t : Table ShippingAddress.t) (s : DB) : DB :=
  mkDB (shop_product s) (profiles_orderitem s) (profiles_order s) t (shop_review s).

Definition set_shop_review (t : Table Review.t) (s : DB) : DB :=
  mkDB (shop_product s) (profiles_orderitem s) (profiles_order s) (profiles_shippingaddress s) t.

(** [Model.objects]: the manager runs its queries on the table of its
    model. *)
Definition Product_objects {A} : M (Table Product.t) A → M DB A :=
  zoom shop_product set_shop_product.

Definition OrderItem_objects {A} : M (Table OrderItem.t) A → M DB A :=
  zoom profiles_orderitem set_profiles_orderitem.

Definition Order_objects {A} : M (Table Order.t) A → M DB A :=
  zoom profiles_order set_profiles_order.

Definition ShippingAddress_objects {A} : M (Table ShippingAddress.t) A → M DB A :=
  zoom profiles_shippingaddress set_profiles_shippingaddress.

Definition Review_objects {A} : M (Table Review.t) A → M DB A :=
  zoom shop_review set_shop_review.

(** ** The lookups of the views *)

(** [Model.objects.filter(id=pk)]. *)
Definition by_id {F} (pk : UUID) : @QuerySet F :=
  filter_ all (λ x, bool_decide (x.1 = pk)).

(** [Product.objects.filter(slug=slug)]. *)
Definition by_slug (slug : string) : @QuerySet Product.t :=
  filter_ all (λ x, bool_decide (Product.slug (fields x.2) = slug)).

(** [OrderItem.objects.filter(user=user, order=None)]: the cart. *)
Definition cart (user : UUID) : @QuerySet OrderItem.t :=
  filter_ all (λ x, bool_decide (OrderItem.user (fields x.2) = user
                                 ∧ OrderItem.order (fields x.2) = None)).

(** [OrderItem.objects.filter(user=user, order_id=None, product=product)]. *)
Definition cart_row (user product_id : UUID) : @QuerySet OrderItem.t :=
  filter_ all (λ x, bool_decide (OrderItem.user (fields x.2) = user
                                 ∧ OrderItem.order (fields x.2) = None
                                 ∧ OrderItem.product (fields x.2) = product_id)).

(** [Review.objects.filter(user=user, product=product)]. *)
Definition review_of (user product_id : UUID) : @QuerySet Review.t :=
  filter_ all (λ x, bool_decide (Review.user (fields x.2) = user
                                 ∧ Review.product (fields x.2) = product_id)).

(** [Review.objects.filter(id=pk, user_id=user)]. *)
Definition review_by (pk user : UUID) : @QuerySet Review.t :=
  filter_ all (λ x, bool_decide (x.1 = pk ∧ Review.user (fields x.2) = user)).

(** ** Requests and responses *)

(** What the operation reads from its environment. *)
Record Env : Type := mkEnv {
  now : datetime;   (* timezone.now() *)
  uuid4 : UUID      (* uuid.uuid4() *)
}.

(** The validated body of a cart request. *)
Record ToggleCartItem : Type := mkToggleCartItem {
  toggle_slug : string;
  toggle_quantity : Z
}.

(** What the views put in a response: the validated cart request, or
    [serializer.data] of one of the three model serializers. *)
Inductive Data : Type :=
  | ToggleCartItemData (d : ToggleCartItem)
  | OrderItemData (x : Instance OrderItem.t)
  | OrderData (x : Instance Order.t)
  | ReviewData (x : Instance Review.t).

(** The JSON bodies the views build. *)
Inductive Body : Type :=
  | Message (message : string)
  | MessageItem (message : string) (item : option Data)
  | Error (error : string)
  | Serialized (d : Data).

Record Response : Type := mkResponse {
  data : Body;
  status : Z
}.

(** [serializer.is_valid(raise_exception=True)] followed by
    [serializer.validated_data]: a request body the serializer rejects
    is [None]. *)
Definition validated_data {S A} (request_data : option A) : M S A :=
  match request_data with
  | Some d => ret d
  | None => raise ValidationError
  end.

(** [for x in xs: acc = body x acc]. *)
Fixpoint for_in {S A B} (xs : list A) (body : A → B → M S B) (acc : B) : M S B :=
  match xs with
  | [] => ret acc
  | x :: xs => let* acc := body x acc in for_in xs body acc
  end.

(** ** [CartView.post] *)

Definition CartView_post (env : Env) (user : UUID) (request_data : option ToggleCartItem)
    : M DB Response :=
  let* validated := validated_data request_data in
  let data := Some (ToggleCartItemData validated) in
  let quantity := toggle_quantity validated in
  let* product :=
    Product_objects (get_or_none (by_slug (toggle_slug validated))) in
  match product with
  | None => ret (mkResponse (Message "No Product with that slug") 404)
  | Some product =>
      let* (orderitem, created) :=
        OrderItem_objects
          (update_or_create
             (cart_row user product.1)
             (OrderItem.mk user None product.1 quantity)
             (OrderItem.set_quantity quantity)
             (uuid4 env) (now env)) in
      let resp_message_substring := "Updated In" in
      let status_code := 200 in
      let '(status_code, resp_message_substring) :=
        if created : bool then (201, "Added To") else (status_code, resp_message_substring) in
      let* (resp_message_substring, data) :=
        if OrderItem.quantity (fields orderitem.2) =? 0 then
          let* _ := OrderItem_objects (Model_delete orderitem) in
          ret ("Removed From", None)
        else ret (resp_message_substring, data) in
      let data :=
        if negb (String.eqb resp_message_substring "Removed From")
        then Some (OrderItemData orderitem) else data in
      ret (mkResponse (MessageItem ("Item " ++ resp_message_substring ++ " Cart") data)
                      status_code)
  end.

(** ** [CheckoutView.post] *)

(** The validated body of a checkout request: [data.get("shipping_id")]
    is [None] when the key is absent. *)
Record Checkout : Type := mkCheckout {
  checkout_shipping_id : option UUID
}.

(** [getattr(shipping, field)]. *)
Definition getattr (obj : Instance ShippingAddress.t) (field : string) : Result string :=
  let f := fields obj.2 in
  if String.eqb field "full_name" then Return (ShippingAddress.full_name f)
  else if String.eqb field "email" then Return (ShippingAddress.email f)
  else if String.eqb field "phone" then Return (ShippingAddress.phone f)
  else if String.eqb field "address" then Return (ShippingAddress.address f)
  else if String.eqb field "city" then Return (ShippingAddress.city f)
  else if String.eqb field "country" then Return (ShippingAddress.country f)
  else if String.eqb field "zipcode" then Return (ShippingAddress.zipcode f)
  else Raise (AttributeError field).

(** The row [Order.objects.create(user=user, **data)] inserts: a column
    with no keyword argument stays NULL. *)
Definition Order_kwargs (user : UUID) (data : gmap string string) : Order.t :=
  Order.mk user (data !! "full_name") (data !! "email") (data !! "phone")
           (data !! "address") (data !! "city") (data !! "country") (data !! "zipcode").

Definition fields_to_update : list string :=
  ["full_name"; "email"; "phone"; "address"; "city"; "country"; "zipcode"].

(** The loop of lines 257 to 260 over a bound [shipping]: the
    dictionary it builds. *)
Definition snapshot (sh : BaseModel ShippingAddress.t) : gmap string string :=
  let f := fields sh in
  <["zipcode" := ShippingAddress.zipcode f]>
    (<["country" := ShippingAddress.country f]>
       (<["city" := ShippingAddress.city f]>
          (<["address" := ShippingAddress.address f]>
             (<["phone" := ShippingAddress.phone f]>
                (<["email" := ShippingAddress.email f]>
                   (<["full_name" := ShippingAddress.full_name f]> ∅)))))).

(** Lines 248 to 266.  The local variable [shipping] is bound
    ([Some]) only if the branch of line 242 was taken; reading it
    while unbound raises. *)
Definition CheckoutView_post_order (env : Env) (user : UUID)
    (orderitems : @QuerySet OrderItem.t)
    (shipping : option (Instance ShippingAddress.t)) : M DB Response :=
  let data : gmap string string := ∅ in
  let* data :=
    for_in fields_to_update
      (λ field data,
         match shipping with
         | None => raise (UnboundLocalError "shipping")
         | Some shipping =>
             match getattr shipping field with
             | Return value => ret (<[field := value]> data)
             | Raise e => raise e
             end
         end) data in
  let* order := Order_objects (create (uuid4 env) (now env) (Order_kwargs user data)) in
  let* _ := OrderItem_objects (update orderitems (OrderItem.set_order (Some order.1))) in
  ret (mkResponse (MessageItem "Checkout Successful" (Some (OrderData order))) 200).

Definition CheckoutView_post (env : Env) (user : UUID) (request_data : option Checkout)
    : M DB Response :=
  let orderitems := cart user in
  let* nonempty := OrderItem_objects (exists_ orderitems) in
  if negb nonempty then ret (mkResponse (Message "No Items in Cart") 404)
  else
    let* data := validated_data request_data in
    let shipping_id := checkout_shipping_id data in
    match shipping_id with
    | Some shipping_id =>
        let* shipping :=
          ShippingAddress_objects (get_or_none (by_id shipping_id)) in
        match shipping with
        | None => ret (mkResponse (Message "No shipping address with that ID") 404)
        | Some shipping => CheckoutView_post_order env user orderitems (Some shipping)
        end
    | None => CheckoutView_post_order env user orderitems None
    end.

(** ** [ReviewViewsPost.post] and [ReviewViewsDelete.delete] *)

(** [request.data] of a review request: the three keys the view reads
    with [request.data.get]. *)
Record ReviewRequest : Type := mkReviewRequest {
  review_product : UUID;
  review_rating : Z;
  review_text : string
}.

Definition ReviewViewsPost_post (env : Env) (user : UUID) (request_data : option ReviewRequest)
    : M DB Response :=
  let* request_data := validated_data request_data in
  let product_id := review_product request_data in
  try_except
    (Product_objects (get (by_id product_id)))
    DoesNotExist (ret (mkResponse (Error "Product not found") 404))
    (λ product,
      let* (review, created) :=
        Review_objects
          (update_or_create
             (review_of user product.1)
             (Review.mk user product.1 (review_rating request_data) (review_text request_data))
             (Review.set_defaults (review_rating request_data) (review_text request_data))
             (uuid4 env) (now env)) in
      if created : bool then ret (mkResponse (Serialized (ReviewData review)) 201)
      else ret (mkResponse (Serialized (ReviewData review)) 200)).

(** The module-level name [product] of [views.py] is bound by
    [from itertools import product] to a class, and a class object is
    truthy. *)
Definition product : bool := true.

(** [kwargs['product_id']] is the key the URL carries. *)
Definition ReviewViewsDelete_delete (user : UUID) (product_id : UUID) : M DB Response :=
  let reviews := review_by product_id user in
  if negb product then ret (mkResponse (Message "Product does not exists!") 404)
  else
    let* _ := Review_objects (QuerySet_delete reviews) in
    ret (mkResponse (Message "Product deleted successfully") 200).

(** ** Reading the responses as the spec's result kinds *)

Inductive ResultKind : Type := Added | Updated | Removed | Created.

(** The kind a cart response announces in its message. *)
Definition toggle_kind (r : Response) : option ResultKind :=
  match data r with
  | MessageItem m _ =>
      if String.eqb m "Item Added To Cart" then Some Added
      else if String.eqb m "Item Updated In Cart" then Some Updated
      else if String.eqb m "Item Removed From Cart" then Some Removed
      else None
  | _ => None
  end.

(** The kind a review response announces in its status. *)
Definition review_kind (r : Response) : option ResultKind :=
  match data r with
  | Serialized (ReviewData _) =>
      if status r =? 201 then Some Created
      else if status r =? 200 then Some Updated
      else None
  | _ => None
  end.

(** The [item] member of a response body. *)
Definition item_payload (r : Response) : option Data :=
  match data r with
  | MessageItem _ item => item
  | _ => None
  end.

(** The rows of all tables: the persisted state. *)
Definition persisted (s : DB) :=
  (rows (shop_product s), rows (profiles_orderitem s), rows (profiles_order s),
   rows (profiles_shippingaddress s), rows (shop_review s)).

(** [most_recent_first x y]: [x] was created no earlier than [y]. *)
Definition most_recent_first {F} : relation (Instance F) :=
  λ x y, created_at y.2 ≤ created_at x.2.

(** ** The views as transitions of the database *)

(** The spec's invariant of the cart: a user has at most one cart row
    per product. *)
Definition cart_unique (t : Table OrderItem.t) : Prop :=
  ∀ user product_id, (size (evaluate (cart_row user product_id) t) ≤ 1)%nat.

(** A call of one of the four writing views. *)
Inductive Call : Type :=
  | call_CartView_post (user : UUID) (request_data : option ToggleCartItem)
  | call_CheckoutView_post (user : UUID) (request_data : option Checkout)
  | call_ReviewViewsPost_post (user : UUID) (request_data : option ReviewRequest)
  | call_ReviewViewsDelete_delete (user : UUID) (product_id : UUID).

Definition run (env : Env) (c : Call) : M DB Response :=
  match c with
  | call_CartView_post user d => CartView_post env user d
  | call_CheckoutView_post user d => CheckoutView_post env user d
  | call_ReviewViewsPost_post user d => ReviewViewsPost_post env user d
  | call_ReviewViewsDelete_delete user pk => ReviewViewsDelete_delete user pk
  end.

(** The databases the views can lead to from [s0], whatever the clock
    and the UUID generator give and whether a call ends with a
    response or an exception. *)
Inductive reachable (s0 : DB) : DB → Prop :=
  | reachable_start : reachable s0 s0
  | reachable_call s env c : reachable s0 s → reachable s0 (run env c s).2.

(** ** Example databases *)

Definition example_row : BaseModel (IsDeleted unit) :=
  mkBaseModel 1 2 (mkIsDeleted false None ()).

(** A table of a soft-deletable model with two rows, 4 and 6, and no
    related rows. *)
Definition example_store : @Store unit unit :=
  mkStore (mkTable (<[4%N := example_row]>
                      {[6%N := mkBaseModel 3 3 (mkIsDeleted false None ())]}) [])
          ().

(** Entity 4 in memory, with timestamps that differ from the stored
    ones. *)
Definition example_instance : N * BaseModel (IsDeleted unit) :=
  (4%N, mkBaseModel 7 8 (mkIsDeleted false None ())).

Definition example_product : BaseModel Product.t :=
  mkBaseModel 0 0 (Product.mk "tea").

Definition example_item : BaseModel OrderItem.t :=
  mkBaseModel 1 1 (OrderItem.mk 1%N None 7%N 3).

Definition example_review : BaseModel Review.t :=
  mkBaseModel 1 1 (Review.mk 2%N 7%N 4 "fine").

Definition example_address : BaseModel ShippingAddress.t :=
  mkBaseModel 0 0
    (ShippingAddress.mk "Ada Lovelace" "ada@example.org" "555-0100" "12 St James Square"
                        "London" "GB" "SW1Y 4JH").

(** One product ("tea", id 7) and one shipping address (id 9); no
    order items, orders or reviews. *)
Definition shop_db : DB :=
  mkDB (mkTable {[7%N := example_product]} [])
       empty_table empty_table
       (mkTable {[9%N := example_address]} [])
       empty_table.

(** The same with 3 of the product in the cart of user 1 (row 100). *)
Definition cart_db : DB :=
  set_profiles_orderitem
    (mkTable {[100%N := example_item]} [INSERT 100%N])
    shop_db.

(** The same with a review of the product by user 2 (row 50). *)
Definition review_db : DB :=
  set_shop_review
    (mkTable {[50%N := example_review]} [INSERT 50%N])
    shop_db.

(** ** Reading a table *)

Section ORM_reads.
Context {F : Type}.

(** Iterating a queryset, as a serializer with [many=True] does: the
    selected rows, in the order the database returns them (no
    ordering is declared for the models of the views). *)
Definition iterate (qs : @QuerySet F) : M (Table F) (list (Instance F)) :=
  λ t, (Return (map_to_list (evaluate qs t)), t).

(** [qs.aggregate(Avg(column))]: SQL's AVG, the sum of the column over
    the number of selected rows, and NULL when there is none.  The
    quotient is kept exact: how the database rounds it is not
    modelled. *)
Definition aggregate_Avg (qs : @QuerySet F) (column : F → Z) : M (Table F) (option QArith_base.Q) :=
  λ t, let values := (λ x, column (fields x.2)) <$> map_to_list (evaluate qs t) in
       (Return match values with
               | [] => None
               | _ :: _ => Some (QArith_base.Qmake (foldr Z.add 0 values) (Pos.of_nat (length values)))
               end, t).

End ORM_reads.

(** ** [CartView.get] and [ReviewViewsGet.get] *)

(** The bodies of the two reading views: [serializer.data] of the cart
    rows, and the dictionary of the reviews of a product with the
    value of ['rating__avg']. *)
Inductive ReadBody : Type :=
  | OrderItems (items : list (Instance OrderItem.t))
  | Reviews (reviews : list (Instance Review.t)) (rating__avg : option QArith_base.Q).

Record ReadResponse : Type := mkReadResponse {
  read_data : ReadBody;
  read_status : Z
}.

Definition CartView_get (user : UUID) : M DB ReadResponse :=
  let orderitems := cart user in
  let* data := OrderItem_objects (iterate orderitems) in
  ret (mkReadResponse (OrderItems data) 200).

(** [Review.objects.filter(product_id=product_id)]. *)
Definition reviews_of_product (product_id : UUID) : @QuerySet Review.t :=
  filter_ all (λ x, bool_decide (Review.product (fields x.2) = product_id)).

(** [ReviewViewsGet.get_object]. *)
Definition ReviewViewsGet_get_object (product_id : UUID) : @QuerySet Review.t :=
  reviews_of_product product_id.

(** [ReviewViewsGet.get_reviews_avg]. *)
Definition ReviewViewsGet_get_reviews_avg (product_id : UUID) : M DB (option QArith_base.Q) :=
  Review_objects (aggregate_Avg (reviews_of_product product_id) Review.rating).

(** [ReviewViewsGet.get]; [kwargs['product_id']] is the key the URL
    carries.  The aggregate is computed first, the reviews are read
    when the response is built. *)
Definition ReviewViewsGet_get (product_id : UUID) : M DB ReadResponse :=
  let reviews := ReviewViewsGet_get_object product_id in
  let* avg_reviews := ReviewViewsGet_get_reviews_avg product_id in
  let* ser_data := Review_objects (iterate reviews) in
  ret (mkReadResponse (Reviews ser_data avg_reviews) 200).

(** [order.orderitems]: the rows that reference an order. *)
Definition of_order (order_id : UUID) : @QuerySet OrderItem.t :=
  filter_ all (λ x, bool_decide (OrderItem.order (fields x.2) = Some order_id)).

(** Every order item that has an order references a stored one. *)
Definition order_references_valid (s : DB) : Prop :=
  ∀ pk r order_id,
    rows (profiles_orderitem s) !! pk = Some r →
    OrderItem.order (fields r) = Some order_id →
    is_Some (rows (profiles_order s) !! order_id).

(** ** The operations of [models.py] as transitions *)

Section IsDeletedModel_operations.
Context {F R : Type}.
Variable on_delete : UUID → R → R.

(** The four deletions [models.py] defines. *)
Inductive Operation : Type :=
  | IsDeletedModel_delete_op (self : Instance (IsDeleted F))
  | IsDeletedModel_hard_delete_op (self : Instance (IsDeleted F))
  | IsDeletedQuerySet_delete_op (self : @QuerySet (IsDeleted F)) (hard_delete : bool)
  | IsDeletedManager_hard_delete_op.

(** The store an operation leaves, also when it raises. *)
Definition perform (now : datetime) (op : Operation) (s : @Store F R) : @Store F R :=
  match op with
  | IsDeletedModel_delete_op self => (IsDeletedModel_delete now self s).2
  | IsDeletedModel_hard_delete_op self => (IsDeletedModel_hard_delete on_delete self s).2
  | IsDeletedQuerySet_delete_op qs hard_delete =>
      (IsDeletedQuerySet_delete on_delete qs hard_delete now s).2
  | IsDeletedManager_hard_delete_op => (IsDeletedManager_hard_delete on_delete now s).2
  end.

Inductive reaches (s0 : @Store F R) : @Store F R → Prop :=
  | reaches_start : reaches s0 s0
  | reaches_perform s now op : reaches s0 s → reaches s0 (perform now op s).

(** A row marked as deleted carries the time of its deletion. *)
Definition stamped (s : @Store F R) : Prop :=
  ∀ pk r, rows (table s) !! pk = Some r →
          is_deleted (fields r) = true → deleted_at (fields r) ≠ None.

End IsDeletedModel_operations.

(** ** What a view may touch *)

(** A slot of the table of order items that is empty or holds a cart
    row of the user. *)
Definition cart_slot (user : UUID) (o : option (BaseModel OrderItem.t)) : Prop :=
  ∀ r, o = Some r →
       OrderItem.order (fields r) = None ∧ OrderItem.user (fields r) = user.

(** A slot of the table of reviews that is empty or holds a review by
    the user. *)
Definition review_slot (user : UUID) (o : option (BaseModel Review.t)) : Prop :=
  ∀ r, o = Some r → Review.user (fields r) = user.

(** ** [apps/shop/urls.py]: the routes, and the handler Django REST
    framework picks for a request *)

Module Urls.

(** The view classes of [views.py]. *)
Inductive View : Type :=
  | CategoriesView | ProductsByCategoryView | ProductsView | ProductsBySellerView
  | ProductView | CartView | CheckoutView | ReviewViewsGet | ReviewViewsPost
  | ReviewViewsDelete | ReviewViewsList.

#[global] Instance View_eq_dec : EqDecision View.
Proof. solve_decision. Defined.

(** [path(route, view)]. *)
Record URLPattern : Type := path {
  route : string;
  view : View
}.

Definition urlpatterns : list URLPattern := [
  path "categories/" CategoriesView;
  path "categories/<slug:slug>/" ProductsByCategoryView;
  path "sellers/<slug:slug>/" ProductsBySellerView;
  path "products/" ProductsView;
  path "products/<slug:slug>/" ProductView;
  path "cart/" CartView;
  path "checkout/" CheckoutView;
  path "reviews/" ReviewViewsPost;
  path "reviews/<str:product_id>/" ReviewViewsGet;
  path "reviews/<str:product_id>/" ReviewViewsDelete
].

(** The two path converters the routes use: [slug] stands for
    [[-a-zA-Z0-9_]+] and [str] for [[^/]+]. *)
Inductive Converter : Type := slug | str.

Definition accepts (c : Converter) (a : Ascii.ascii) : bool :=
  let n := Ascii.N_of_ascii a in
  match c with
  | slug => ((48 <=? n) && (n <=? 57) || (65 <=? n) && (n <=? 90)
             || (97 <=? n) && (n <=? 122) || (n =? 45) || (n =? 95))%N
  | str => negb (n =? 47)%N
  end.

(** [a] is the character [c] (a string of length one). *)
Definition is_char (a : Ascii.ascii) (c : string) : bool :=
  String.eqb (String a EmptyString) c.

(** Every character of [value] is one the converter accepts. *)
Fixpoint all_accepted (c : Converter) (value : string) : bool :=
  match value with
  | EmptyString => true
  | String a value => accepts c a && all_accepted c value
  end.

(** A route is a sequence of literal texts and parameters. *)
Inductive Segment : Type :=
  | Lit (text : string)
  | Param (converter : Converter) (name : string).

(** [<converter:name>], read up to the colon. *)
Fixpoint split_colon (before text : string) : option (string * string) :=
  match text with
  | EmptyString => None
  | String a rest =>
      if is_char a ":" then Some (before, rest)
      else split_colon (before +:+ String a EmptyString) rest
  end.

(** The parameter an angle bracket declares; a bracket without a colon
    uses [str].  Other converters than the two above do not occur. *)
Definition parameter (text : string) : option Segment :=
  match split_colon "" text with
  | None => Some (Param str text)
  | Some (c, name) =>
      if String.eqb c "slug" then Some (Param slug name)
      else if String.eqb c "str" then Some (Param str name)
      else None
  end.

Definition literal (text : string) (rest : list Segment) : list Segment :=
  if String.eqb text "" then rest else Lit text :: rest.

(** Django's translation of a route, in one pass: [bracket] is the
    text read since an open angle bracket, [text] the literal read
    before it. *)
Fixpoint segments (text : string) (bracket : option string) (route : string)
    : option (list Segment) :=
  match route with
  | EmptyString =>
      match bracket with
      | None => Some (literal text [])
      | Some _ => None
      end
  | String a rest =>
      match bracket with
      | None =>
          if is_char a "<" then literal text <$> segments "" (Some "") rest
          else segments (text +:+ String a EmptyString) None rest
      | Some inside =>
          if is_char a ">" then
            p ← parameter inside; (cons p) <$> segments "" None rest
          else segments text (Some (inside +:+ String a EmptyString)) rest
      end
  end.

(** The rest of [url] after the literal [text]. *)
Fixpoint strip_prefix (text url : string) : option string :=
  match text, url with
  | EmptyString, _ => Some url
  | String a text, String b url => if Ascii.eqb a b then strip_prefix text url else None
  | String _ _, EmptyString => None
  end.

(** The longest prefix of [url] the converter accepts, and the rest. *)
Fixpoint span (c : Converter) (url : string) : string * string :=
  match url with
  | EmptyString => (EmptyString, EmptyString)
  | String a rest =>
      if accepts c a then let '(value, rest') := span c rest in (String a value, rest')
      else (EmptyString, url)
  end.

(** Matching a whole url against a route, with the captured keyword
    arguments.  Neither converter accepts the slash that follows every
    parameter of these routes, so the longest match is the only one. *)
Fixpoint match_segments (segs : list Segment) (url : string)
    : option (list (string * string)) :=
  match segs with
  | [] => if String.eqb url "" then Some [] else None
  | Lit text :: segs => rest ← strip_prefix text url; match_segments segs rest
  | Param c name :: segs =>
      let '(value, rest) := span c url in
      if String.eqb value "" then None
      else kwargs ← match_segments segs rest; Some ((name, value) :: kwargs)
  end.

Definition match_route (route url : string) : option (list (string * string)) :=
  segs ← segments "" None route; match_segments segs url.

(** The resolver: the first pattern that matches. *)
Fixpoint resolve_in (patterns : list URLPattern) (url : string)
    : option (View * list (string * string)) :=
  match patterns with
  | [] => None
  | p :: patterns =>
      match match_route (route p) url with
      | Some kwargs => Some (view p, kwargs)
      | None => resolve_in patterns url
      end
  end.

Definition resolve (url : string) : option (View * list (string * string)) :=
  resolve_in urlpatterns url.

(** [View.http_method_names]. *)
Inductive Method : Type := GET | POST | PUT | PATCH | DELETE | HEAD | OPTIONS | TRACE.

#[global] Instance Method_eq_dec : EqDecision Method.
Proof. solve_decision. Defined.

(** The handlers each class of [views.py] defines. *)
Definition handlers (v : View) : list Method :=
  match v with
  | CategoriesView => [GET; POST]
  | ProductsByCategoryView => [GET]
  | ProductsView => [GET]
  | ProductsBySellerView => [GET]
  | ProductView => [GET]
  | CartView => [GET; POST]
  | CheckoutView => [POST]
  | ReviewViewsGet => [GET]
  | ReviewViewsPost => [POST]
  | ReviewViewsDelete => [DELETE]
  | ReviewViewsList => [GET]
  end.

(** What becomes of a request. *)
Inductive Dispatch : Type :=
  | Resolver404
  | http_method_not_allowed (v : View)
  | handler (v : View) (m : Method) (kwargs : list (string * string)).

(** [APIView.dispatch] after the resolver: the method of the view
    named after the HTTP method, [http_method_not_allowed] when the
    class has none.  Every [APIView] has [options], and [head] is
    [get] where there is a [get].  The checks that can refuse a
    request before its handler runs (authentication, permissions,
    throttling) are not part of this. *)
Definition dispatch (m : Method) (url : string) : Dispatch :=
  match resolve url with
  | None => Resolver404
  | Some (v, kwargs) =>
      match m with
      | OPTIONS => handler v OPTIONS kwargs
      | HEAD =>
          if bool_decide (GET ∈ handlers v) then handler v GET kwargs
          else http_method_not_allowed v
      | _ =>
          if bool_decide (m ∈ handlers v) then handler v m kwargs
          else http_method_not_allowed v
      end
  end.

End Urls.

(** [cart_db] after the checkout of user 1 to address 9: its item now
    has the order 102. *)
Definition ordered_db : DB :=
  (CheckoutView_post (mkEnv 3 102%N) 1%N (Some (mkCheckout (Some 9%N))) cart_db).2.

(** [shop_db] with two cart rows of user 1 for the product: a cart
    that breaks the invariant. *)
Definition duplicate_cart_db : DB :=
  set_profiles_orderitem
    (mkTable (<[101%N := example_item]> {[100%N := example_item]}) []) shop_db.

(** * Properties *)

(** Unfold the managers and the binds of a view, and read the tables
    it touches off the database. *)
Ltac view_step :=
  unfold Product_objects, OrderItem_objects, Order_objects, ShippingAddress_objects,
    Review_objects, zoom, bind, try_except;
  cbn [validated_data ret fst snd negb
       shop_product profiles_orderitem profiles_order profiles_shippingaddress shop_review
       set_shop_product set_profiles_orderitem set_profiles_order
       set_profiles_shippingaddress set_shop_review
       toggle_slug toggle_quantity checkout_shipping_id
       review_product review_rating review_text].

(** ** The ORM operations *)

Section ORM_facts.
Context {F : Type}.
Implicit Types (qs : @QuerySet F) (t : Table F) (pk : N) (r : BaseModel F).

Lemma evaluate_lookup qs t pk r :
  evaluate qs t !! pk = Some r ↔ rows t !! pk = Some r ∧ qs (pk, r) = true.
Proof.
  unfold evaluate. rewrite map_lookup_filter_Some. simpl.
  by rewrite Is_true_true.
Qed.

Lemma evaluate_singleton_lookup qs t pk r :
  evaluate qs t = {[pk := r]} → rows t !! pk = Some r ∧ qs (pk, r) = true.
Proof.
  intros H. apply evaluate_lookup. rewrite H. apply lookup_singleton_eq.
Qed.

Lemma evaluate_by_id_Some t pk r :
  rows t !! pk = Some r → evaluate (by_id pk) t = {[pk := r]}.
Proof.
  intros H. apply map_eq. intros k. apply option_eq. intros r'.
  rewrite evaluate_lookup, lookup_singleton_Some. unfold by_id, filter_, all. simpl.
  rewrite bool_decide_eq_true.
  split; [intros [Hk ->]; split; congruence | intros [<- <-]; done].
Qed.

Lemma evaluate_by_id_None t pk :
  rows t !! pk = None → evaluate (by_id pk) t = ∅.
Proof.
  intros H. apply map_eq. intros k. rewrite lookup_empty.
  apply eq_None_not_Some. intros [r' Hr']. apply evaluate_lookup in Hr' as [Hr' Hq].
  unfold by_id, filter_, all in Hq. simpl in Hq.
  apply bool_decide_eq_true in Hq. congruence.
Qed.

Lemma get_empty qs t : evaluate qs t = ∅ → get qs t = (Raise DoesNotExist, t).
Proof. intros H. unfold get. by rewrite H, map_to_list_empty. Qed.

Lemma get_singleton qs t pk r :
  evaluate qs t = {[pk := r]} → get qs t = (Return (pk, r), t).
Proof. intros H. unfold get. by rewrite H, map_to_list_singleton. Qed.

Lemma get_or_none_empty qs t : evaluate qs t = ∅ → get_or_none qs t = (Return None, t).
Proof. intros H. unfold get_or_none. by rewrite get_empty. Qed.

Lemma get_or_none_singleton qs t pk r :
  evaluate qs t = {[pk := r]} → get_or_none qs t = (Return (Some (pk, r)), t).
Proof. intros H. unfold get_or_none. by rewrite (get_singleton _ _ pk r). Qed.

Lemma exists_empty qs t : evaluate qs t = ∅ → exists_ qs t = (Return false, t).
Proof. intros H. unfold exists_. by rewrite bool_decide_eq_false_2 by auto. Qed.

Lemma exists_nonempty qs t : evaluate qs t ≠ ∅ → exists_ qs t = (Return true, t).
Proof. intros H. unfold exists_. by rewrite bool_decide_eq_true_2. Qed.

(** A lookup that selects at most one row selects none or just that one. *)
Lemma at_most_one_row (m : gmap N (BaseModel F)) :
  (size m ≤ 1)%nat → m = ∅ ∨ ∃ pk r, m = {[pk := r]}.
Proof.
  intros Hsz. destruct (decide (size m = 0%nat)) as [H0|H0].
  - left. by apply map_size_empty_inv.
  - right. assert (H1 : size m = 1%nat) by lia.
    destruct (map_size_ne_0_lookup_1 m H0) as (pk & r & Hpk).
    exists pk, r. rewrite <- (insert_delete_id m pk r Hpk).
    assert (Hd : delete pk m = ∅).
    { apply map_size_empty_inv. rewrite map_size_delete_Some by eauto. lia. }
    by rewrite Hd.
Qed.

(** The create path of [update_or_create]. *)
Lemma update_or_create_creates qs new defaults pk now t :
  evaluate qs t = ∅ → rows t !! pk = None →
  update_or_create qs new defaults pk now t
  = (Return ((pk, mkBaseModel now now new), true),
     mkTable (<[pk := mkBaseModel now now new]> (rows t)) (journal t ++ [INSERT pk])).
Proof.
  intros He Hpk. unfold update_or_create. rewrite get_empty by done.
  unfold bind, create. by rewrite Hpk.
Qed.

(** The update path of [update_or_create]. *)
Lemma update_or_create_updates qs new defaults pk now t k r :
  evaluate qs t = {[k := r]} →
  update_or_create qs new defaults pk now t
  = (Return ((k, set_updated_at now (set_fields defaults r)), false),
     mkTable (<[k := set_updated_at now (set_fields defaults r)]> (rows t))
             (journal t ++ [UPDATE [k]])).
Proof.
  intros He. unfold update_or_create. rewrite (get_singleton _ _ k r) by done.
  apply evaluate_singleton_lookup in He as [Hk _].
  unfold bind, save_update_fields. simpl. by rewrite Hk.
Qed.

(** The outcomes of the lookups and of [update_or_create], exhaustively. *)
Lemma map_to_list_single (m : gmap N (BaseModel F)) x :
  map_to_list m = [x] → m = {[x.1 := x.2]}.
Proof.
  intros H. rewrite <- (list_to_map_to_list m), H. destruct x. reflexivity.
Qed.

Lemma get_cases qs t :
  (∃ e, get qs t = (Raise e, t) ∧ (e = DoesNotExist → evaluate qs t = ∅))
  ∨ (∃ k r, evaluate qs t = {[k := r]} ∧ get qs t = (Return (k, r), t)).
Proof.
  unfold get. destruct (map_to_list (evaluate qs t)) as [|[k r] [|y l]] eqn:E.
  - left. exists DoesNotExist. split; [done|]. intros _. by apply map_to_list_empty_iff.
  - right. exists k, r. split; [|done]. by apply map_to_list_single in E.
  - left. exists MultipleObjectsReturned. split; done.
Qed.

Lemma get_or_none_cases qs t :
  (∃ e, get_or_none qs t = (Raise e, t))
  ∨ get_or_none qs t = (Return None, t)
  ∨ (∃ k r, evaluate qs t = {[k := r]} ∧ get_or_none qs t = (Return (Some (k, r)), t)).
Proof.
  unfold get_or_none.
  destruct (get_cases qs t) as [(e & -> & _) | (k & r & He & ->)].
  - destruct e; eauto.
  - right. right. eauto.
Qed.

Lemma update_or_create_cases qs new defaults pk now t :
  (∃ e, update_or_create qs new defaults pk now t = (Raise e, t))
  ∨ (evaluate qs t = ∅ ∧ rows t !! pk = None
     ∧ update_or_create qs new defaults pk now t
       = (Return ((pk, mkBaseModel now now new), true),
          mkTable (<[pk := mkBaseModel now now new]> (rows t)) (journal t ++ [INSERT pk])))
  ∨ (∃ k r, evaluate qs t = {[k := r]}
     ∧ update_or_create qs new defaults pk now t
       = (Return ((k, set_updated_at now (set_fields defaults r)), false),
          mkTable (<[k := set_updated_at now (set_fields defaults r)]> (rows t))
                  (journal t ++ [UPDATE [k]]))).
Proof.
  destruct (get_cases qs t) as [(e & Hg & He) | (k & r & He & Hg)].
  - destruct (decide (e = DoesNotExist)) as [->|Hne].
    + destruct (rows t !! pk) as [r|] eqn:Hpk.
      * left. exists IntegrityError. unfold update_or_create. rewrite Hg.
        unfold bind, create. by rewrite Hpk.
      * right. left. split; [auto|]. split; [done|].
        apply update_or_create_creates; auto.
    + left. exists e. unfold update_or_create. rewrite Hg. by destruct e.
  - right. right. exists k, r. split; [done|]. by apply update_or_create_updates.
Qed.

(** Writing one row changes the selection of a lookup by at most that row. *)
Lemma size_evaluate_insert qs t k r j :
  (size (evaluate qs (mkTable (<[k := r]> (rows t)) j))
   ≤ if qs (k, r) then S (size (evaluate qs (mkTable (delete k (rows t)) j)))
     else size (evaluate qs t))%nat.
Proof.
  unfold evaluate. cbn [rows]. destruct (qs (k, r)) eqn:Hq.
  - rewrite map_filter_insert_True by by apply Is_true_true.
    rewrite map_size_insert, map_filter_delete.
    rewrite map_size_delete.
    destruct (filter _ (rows t) !! k); simpl; lia.
  - rewrite map_filter_insert_False by (simpl; rewrite Hq; tauto).
    rewrite map_filter_delete, map_size_delete.
    destruct (filter _ (rows t) !! k); simpl; lia.
Qed.

Lemma size_evaluate_delete qs t k j :
  (size (evaluate qs (mkTable (delete k (rows t)) j)) ≤ size (evaluate qs t))%nat.
Proof.
  unfold evaluate. cbn [rows]. rewrite map_filter_delete, map_size_delete.
  destruct (filter _ (rows t) !! k); simpl; lia.
Qed.

End ORM_facts.

(** ** Soft deletion *)

Section IsDeletedModel_facts.
Context {F R : Type}.
Implicit Types (s : @Store F R) (self : Instance (IsDeleted F))
  (r : BaseModel (IsDeleted F)) (qs : @QuerySet (IsDeleted F)).

Lemma IsDeletedModel_delete_eq now self s r :
  rows (table s) !! self.1 = Some r →
  IsDeletedModel_delete now self s
  = (Return (self.1, soft_deleted now self.2),
     mkStore (mkTable (<[self.1 := soft_deleted now r]> (rows (table s)))
                      (journal (table s) ++ [UPDATE [self.1]]))
             (related s)).
Proof.
  intros Hr. unfold IsDeletedModel_delete, bind, zoom, save_update_fields.
  simpl. by rewrite Hr.
Qed.

Lemma get_queryset_true (x : Instance (IsDeleted F)) :
  get_queryset x = true ↔ is_deleted (fields x.2) = false.
Proof. unfold get_queryset, filter_, all. simpl. apply bool_decide_eq_true. Qed.

Lemma elem_of_fetch qs (t : Table (IsDeleted F)) x :
  x ∈ fetch qs t ↔ rows t !! x.1 = Some x.2 ∧ qs x = true.
Proof.
  unfold fetch. rewrite merge_sort_Permutation.
  destruct x as [pk r]. by rewrite elem_of_map_to_list, evaluate_lookup.
Qed.

#[local] Instance ordering_total : Total (@ordering F).
Proof. intros x y. unfold ordering. lia. Qed.

#[local] Instance ordering_trans : Transitive (@ordering F).
Proof. intros x y z. unfold ordering. lia. Qed.

(** C3: after [delete()] of a stored entity of a soft-deletable
    model, no query built on the default queryset of the manager
    returns the entity, [unfiltered()] still does, and its
    [deleted_at] is set (to the time of the call). *)
Theorem soft_delete_hides_entity now self s r :
  rows (table s) !! self.1 = Some r →
  ∃ self' s' r',
    IsDeletedModel_delete now self s = (Return self', s')
    ∧ (∀ x, x ∈ fetch get_queryset (table s') → x.1 ≠ self.1)
    ∧ (∀ cond x, x ∈ fetch (filter_ get_queryset cond) (table s') → x.1 ≠ self.1)
    ∧ (self.1, r') ∈ fetch unfiltered (table s')
    ∧ deleted_at (fields r') = Some now
    ∧ deleted_at (fields r') ≠ None.
Proof.
  intros Hr. eexists _, _, (soft_deleted now r).
  split; [by apply IsDeletedModel_delete_eq|]. simpl.
  split; [|split; [|split; [|done]]].
  - intros [pk x]. rewrite elem_of_fetch. simpl. intros [Hx Hq] ->.
    rewrite lookup_insert_eq in Hx. injection Hx as <-.
    by apply get_queryset_true in Hq.
  - intros cond [pk x]. rewrite elem_of_fetch. simpl. intros [Hx Hq] ->.
    rewrite lookup_insert_eq in Hx. injection Hx as <-.
    apply andb_prop in Hq as [Hq _]. by apply get_queryset_true in Hq.
  - apply elem_of_fetch. simpl. by rewrite lookup_insert_eq.
Qed.

(** The same through a queryset: after [qs.delete()] (soft), no row
    [qs] selected is returned by the default queryset, and each is
    still returned by [unfiltered()] with [deleted_at] set. *)
Lemma soft_delete_hides_queryset (on_delete : N → R → R) now qs s pk r :
  rows (table s) !! pk = Some r → qs (pk, r) = true →
  ∃ n s',
    IsDeletedQuerySet_delete on_delete qs false now s = (Return n, s')
    ∧ (∀ x, x ∈ fetch get_queryset (table s') → x.1 ≠ pk)
    ∧ (pk, soft_deleted now r) ∈ fetch unfiltered (table s').
Proof.
  intros Hr Hq. eexists _, _. split; [reflexivity|]. simpl.
  assert (Hpk : map_imap
            (λ k r0, Some (if qs (k, r0)
                           then set_fields (λ f, mkIsDeleted true (Some now) (own f)) r0
                           else r0)) (rows (table s)) !! pk = Some (soft_deleted now r)).
  { rewrite map_lookup_imap, Hr. simpl. by rewrite Hq. }
  split.
  - intros [k x]. rewrite elem_of_fetch. simpl. intros [Hx Hg] ->.
    rewrite Hpk in Hx. injection Hx as <-.
    by apply get_queryset_true in Hg.
  - apply elem_of_fetch. simpl. by rewrite Hpk.
Qed.

(** C8: a soft delete writes the two columns [is_deleted] and
    [deleted_at] of the rows it is about and nothing else: the other
    columns of those rows, all other rows and the rows of the related
    models stay as they were.  This holds for [delete()] of an
    instance, whatever its in-memory attributes are, and for
    [delete()] of a queryset. *)
Theorem soft_delete_frame (on_delete : N → R → R) now self qs s r :
  rows (table s) !! self.1 = Some r →
  (∃ self' s' r',
     IsDeletedModel_delete now self s = (Return self', s')
     ∧ related s' = related s
     ∧ rows (table s') = <[self.1 := r']> (rows (table s))
     ∧ is_deleted (fields r') = true
     ∧ deleted_at (fields r') = Some now
     ∧ own (fields r') = own (fields r)
     ∧ created_at r' = created_at r
     ∧ updated_at r' = updated_at r
     ∧ journal (table s') = journal (table s) ++ [UPDATE [self.1]])
  ∧ (∃ n s',
     IsDeletedQuerySet_delete on_delete qs false now s = (Return n, s')
     ∧ related s' = related s
     ∧ ∀ pk, rows (table s') !! pk
             = (λ r0, if qs (pk, r0)
                      then mkBaseModel (created_at r0) (updated_at r0)
                             (mkIsDeleted true (Some now) (own (fields r0)))
                      else r0) <$> rows (table s) !! pk).
Proof.
  intros Hr. split.
  - eexists _, _, (soft_deleted now r).
    split; [by apply IsDeletedModel_delete_eq|]. by simpl.
  - eexists _, _. split; [reflexivity|]. simpl. split; [done|].
    intros pk. rewrite map_lookup_imap. by destruct (rows (table s) !! pk).
Qed.

(** A hard delete, in contrast, removes the row and runs the cascade
    over the related rows. *)
Lemma hard_delete_cascades (on_delete : N → R → R) self s :
  IsDeletedModel_hard_delete on_delete self s
  = (Return (),
     mkStore (mkTable (delete self.1 (rows (table s)))
                      (journal (table s) ++ [DELETE [self.1]]))
             (on_delete self.1 (related s))).
Proof. reflexivity. Qed.

(** C7, as the code has it: a read returns the selected rows, each
    once, in descending order of primary key. *)
Theorem default_ordering_descending_id qs (t : Table (IsDeleted F)) :
  StronglySorted ordering (fetch qs t)
  ∧ fetch qs t ≡ₚ map_to_list (evaluate qs t)
  ∧ NoDup (fetch qs t).*1.
Proof.
  unfold fetch. split; [|split].
  - apply StronglySorted_merge_sort; apply _.
  - apply merge_sort_Permutation.
  - rewrite merge_sort_Permutation. apply NoDup_fst_map_to_list.
Qed.

End IsDeletedModel_facts.

(** C7, as stated, fails: two entities created one after the
    other, the first with the larger primary key, are read oldest
    first. *)
Lemma default_ordering_not_most_recent_first :
  let t : Table (IsDeleted unit) :=
    (bind (create 5%N 1 (mkIsDeleted false None ()))
          (λ _, create 3%N 2 (mkIsDeleted false None ())) empty_table).2 in
  fetch get_queryset t
  = [(5%N, mkBaseModel 1 1 (mkIsDeleted false None ()));
     (3%N, mkBaseModel 2 2 (mkIsDeleted false None ()))]
  ∧ ¬ Sorted most_recent_first (fetch get_queryset t).
Proof.
  assert (E : fetch get_queryset
                (bind (create 5%N 1 (mkIsDeleted false None ()))
                      (λ _, create 3%N 2 (mkIsDeleted false None ())) empty_table).2
              = [(5%N, mkBaseModel 1 1 (mkIsDeleted false None ()));
                 (3%N, mkBaseModel 2 2 (mkIsDeleted false None ()))])
    by (vm_compute; reflexivity).
  simpl. split; [exact E|]. rewrite E. intros HS.
  apply Sorted_inv in HS as [_ HH]. apply HdRel_inv in HH.
  unfold most_recent_first in HH. simpl in HH. lia.
Qed.

(** ** Checkout *)

Lemma Order_kwargs_snapshot user sh :
  Order_kwargs user (snapshot sh)
  = let f := fields sh in
    Order.mk user (Some (ShippingAddress.full_name f)) (Some (ShippingAddress.email f))
      (Some (ShippingAddress.phone f)) (Some (ShippingAddress.address f))
      (Some (ShippingAddress.city f)) (Some (ShippingAddress.country f))
      (Some (ShippingAddress.zipcode f)).
Proof. destruct sh as [c u [a1 a2 a3 a4 a5 a6 a7]]. vm_compute. reflexivity. Qed.

Lemma CheckoutView_post_order_bound env user orderitems pk sh s :
  rows (profiles_order s) !! uuid4 env = None →
  CheckoutView_post_order env user orderitems (Some (pk, sh)) s
  = let order := mkBaseModel (now env) (now env) (Order_kwargs user (snapshot sh)) in
    (Return (mkResponse (MessageItem "Checkout Successful"
                           (Some (OrderData (uuid4 env, order)))) 200),
     mkDB (shop_product s)
          (update orderitems (OrderItem.set_order (Some (uuid4 env)))
                  (profiles_orderitem s)).2
          (mkTable (<[uuid4 env := order]> (rows (profiles_order s)))
                   (journal (profiles_order s) ++ [INSERT (uuid4 env)]))
          (profiles_shippingaddress s) (shop_review s)).
Proof.
  intros Hfresh. destruct s as [tp ti to ts tr]. simpl in *.
  unfold CheckoutView_post_order, Order_objects, OrderItem_objects, zoom, bind, create.
  simpl. rewrite Hfresh. reflexivity.
Qed.

Lemma CheckoutView_post_order_unbound env user orderitems s :
  CheckoutView_post_order env user orderitems None s
  = (Raise (UnboundLocalError "shipping"), s).
Proof. reflexivity. Qed.

(** C4: with an empty cart, checkout answers "No Items in Cart" (404),
    whatever the request body is, and leaves the database as it was:
    no statement is executed on any table. *)
Theorem checkout_empty_cart env user request_data s :
  evaluate (cart user) (profiles_orderitem s) = ∅ →
  CheckoutView_post env user request_data s
  = (Return (mkResponse (Message "No Items in Cart") 404), s).
Proof.
  intros Hempty. destruct s as [tp ti to ts tr]. simpl in *.
  unfold CheckoutView_post. view_step. by rewrite exists_empty.
Qed.

(** C10: with a non-empty cart and validated data without
    [shipping_id], checkout raises [UnboundLocalError] for [shipping];
    this happens before any write, so the database is as it was. *)
Theorem checkout_without_shipping_id env user s :
  evaluate (cart user) (profiles_orderitem s) ≠ ∅ →
  CheckoutView_post env user (Some (mkCheckout None)) s
  = (Raise (UnboundLocalError "shipping"), s).
Proof.
  intros Hcart. destruct s as [tp ti to ts tr]. simpl in *.
  unfold CheckoutView_post. view_step. by rewrite exists_nonempty.
Qed.

Lemma update_lookup {F} (qs : @QuerySet F) (assign : F → F) (t : Table F) pk :
  rows (update qs assign t).2 !! pk
  = (λ r, if qs (pk, r) then set_fields assign r else r) <$> rows t !! pk.
Proof. simpl. rewrite map_lookup_imap. by destruct (rows t !! pk). Qed.

Lemma cart_true user (x : Instance OrderItem.t) :
  cart user x = true
  ↔ OrderItem.user (fields x.2) = user ∧ OrderItem.order (fields x.2) = None.
Proof. unfold cart, filter_, all. simpl. apply bool_decide_eq_true. Qed.

Lemma CheckoutView_post_success env user shipping_id sh s :
  evaluate (cart user) (profiles_orderitem s) ≠ ∅ →
  rows (profiles_shippingaddress s) !! shipping_id = Some sh →
  rows (profiles_order s) !! uuid4 env = None →
  CheckoutView_post env user (Some (mkCheckout (Some shipping_id))) s
  = let order := mkBaseModel (now env) (now env) (Order_kwargs user (snapshot sh)) in
    (Return (mkResponse (MessageItem "Checkout Successful"
                           (Some (OrderData (uuid4 env, order)))) 200),
     set_profiles_orderitem
       (update (cart user) (OrderItem.set_order (Some (uuid4 env)))
               (profiles_orderitem s)).2
       (set_profiles_order
          (mkTable (<[uuid4 env := order]> (rows (profiles_order s)))
                   (journal (profiles_order s) ++ [INSERT (uuid4 env)])) s)).
Proof.
  intros Hcart Hsh Hfresh. destruct s as [tp ti to ts tr]. simpl in *.
  unfold CheckoutView_post. view_step.
  rewrite exists_nonempty by done. view_step.
  rewrite (get_or_none_singleton _ _ shipping_id sh) by by apply evaluate_by_id_Some.
  rewrite CheckoutView_post_order_bound by done. reflexivity.
Qed.

(** C1: checkout of a non-empty cart with the id of a stored shipping
    address (and a fresh UUID for the order) answers 200 with the new
    order; the orders are the former ones and that one; it belongs to
    the user and its seven shipping fields are those of the address;
    every row of the cart now references it and the cart is empty; all
    other rows of all tables are as they were. *)
Theorem checkout_creates_order env user shipping_id sh s :
  evaluate (cart user) (profiles_orderitem s) ≠ ∅ →
  rows (profiles_shippingaddress s) !! shipping_id = Some sh →
  rows (profiles_order s) !! uuid4 env = None →
  ∃ order s',
    CheckoutView_post env user (Some (mkCheckout (Some shipping_id))) s
    = (Return (mkResponse (MessageItem "Checkout Successful"
                             (Some (OrderData (uuid4 env, order)))) 200), s')
    ∧ rows (profiles_order s') = <[uuid4 env := order]> (rows (profiles_order s))
    ∧ size (rows (profiles_order s')) = S (size (rows (profiles_order s)))
    ∧ Order.user (fields order) = user
    ∧ Order.full_name (fields order) = Some (ShippingAddress.full_name (fields sh))
    ∧ Order.email (fields order) = Some (ShippingAddress.email (fields sh))
    ∧ Order.phone (fields order) = Some (ShippingAddress.phone (fields sh))
    ∧ Order.address (fields order) = Some (ShippingAddress.address (fields sh))
    ∧ Order.city (fields order) = Some (ShippingAddress.city (fields sh))
    ∧ Order.country (fields order) = Some (ShippingAddress.country (fields sh))
    ∧ Order.zipcode (fields order) = Some (ShippingAddress.zipcode (fields sh))
    ∧ (∀ pk r, evaluate (cart user) (profiles_orderitem s) !! pk = Some r →
         rows (profiles_orderitem s') !! pk
         = Some (set_fields (OrderItem.set_order (Some (uuid4 env))) r))
    ∧ (∀ pk, evaluate (cart user) (profiles_orderitem s) !! pk = None →
         rows (profiles_orderitem s') !! pk = rows (profiles_orderitem s) !! pk)
    ∧ evaluate (cart user) (profiles_orderitem s') = ∅
    ∧ rows (shop_product s') = rows (shop_product s)
    ∧ rows (profiles_shippingaddress s') = rows (profiles_shippingaddress s)
    ∧ rows (shop_review s') = rows (shop_review s).
Proof.
  intros Hcart Hsh Hfresh.
  eexists _, _. split; [by apply (CheckoutView_post_success _ _ _ sh)|].
  - cbn [profiles_order profiles_orderitem shop_product profiles_shippingaddress
         shop_review rows fields set_profiles_orderitem set_profiles_order].
    rewrite Order_kwargs_snapshot. cbn [Order.user Order.full_name Order.email
      Order.phone Order.address Order.city Order.country Order.zipcode].
    split; [done|]. split; [by apply map_size_insert_None|].
    do 8 (split; [done|]).
    split; [|split; [|split; [|done]]].
    + intros pk r [Hr Hq]%evaluate_lookup. by rewrite update_lookup, Hr; simpl; rewrite Hq.
    + intros pk Hnone. rewrite update_lookup.
      destruct (rows (profiles_orderitem s) !! pk) as [r|] eqn:Hr; [|done]. simpl.
      destruct (cart user (pk, r)) eqn:Hq; [|done].
      assert (evaluate (cart user) (profiles_orderitem s) !! pk = Some r)
        by by apply evaluate_lookup.
      congruence.
    + apply map_eq. intros pk. rewrite lookup_empty. apply eq_None_not_Some.
      intros [r' [Hr' Hq']%evaluate_lookup]. rewrite update_lookup in Hr'.
      destruct (rows (profiles_orderitem s) !! pk) as [r|] eqn:Hr; [|done].
      simpl in Hr'. injection Hr' as <-.
      destruct (cart user (pk, r)) eqn:Hq; [|congruence].
      apply cart_true in Hq'. simpl in Hq'. by destruct Hq'.
Qed.

(** ** The cart *)

Lemma cart_row_true user product_id (x : Instance OrderItem.t) :
  cart_row user product_id x = true
  ↔ OrderItem.user (fields x.2) = user ∧ OrderItem.order (fields x.2) = None
    ∧ OrderItem.product (fields x.2) = product_id.
Proof. unfold cart_row, filter_, all. simpl. apply bool_decide_eq_true. Qed.

(** Writing a row the lookup selects, at the key of the only row it
    selected or when it selected none, leaves it selecting that row. *)
Lemma evaluate_insert {F} (qs : @QuerySet F) (t : Table F) pk r j :
  qs (pk, r) = true →
  evaluate qs t = ∅ ∨ (∃ r0, evaluate qs t = {[pk := r0]}) →
  evaluate qs (mkTable (<[pk := r]> (rows t)) j) = {[pk := r]}.
Proof.
  intros Hq Hsel. unfold evaluate in *. cbn [rows].
  rewrite map_filter_insert_True by by rewrite Is_true_true.
  destruct Hsel as [-> | [r0 ->]].
  - apply insert_empty.
  - apply insert_singleton_eq.
Qed.

(** [CartView.post] for a product the slug resolves to, when the user
    has no cart row for it: the row is inserted, and deleted again if
    the quantity is 0. *)
Lemma CartView_post_created env user slug q product_id p s :
  evaluate (by_slug slug) (shop_product s) = {[product_id := p]} →
  evaluate (cart_row user product_id) (profiles_orderitem s) = ∅ →
  rows (profiles_orderitem s) !! uuid4 env = None →
  CartView_post env user (Some (mkToggleCartItem slug q)) s
  = let pk := uuid4 env in
    let r := mkBaseModel (now env) (now env) (OrderItem.mk user None product_id q) in
    let t := profiles_orderitem s in
    if q =? 0
    then (Return (mkResponse (MessageItem "Item Removed From Cart" None) 201),
          set_profiles_orderitem
            (mkTable (delete pk (<[pk := r]> (rows t)))
                     ((journal t ++ [INSERT pk]) ++ [DELETE [pk]])) s)
    else (Return (mkResponse (MessageItem "Item Added To Cart"
                                (Some (OrderItemData (pk, r)))) 201),
          set_profiles_orderitem
            (mkTable (<[pk := r]> (rows t)) (journal t ++ [INSERT pk])) s).
Proof.
  intros Hp Hnone Hfresh. destruct s as [tp ti to ts tr]. simpl in *.
  unfold CartView_post. view_step.
  rewrite (get_or_none_singleton _ _ product_id p) by done. view_step.
  rewrite update_or_create_creates by done.
  cbn [fst snd fields OrderItem.quantity]. destruct (q =? 0); reflexivity.
Qed.

(** [CartView.post] for a product the slug resolves to, when the user
    has one cart row for it: the row gets the quantity, and is deleted
    if the quantity is 0. *)
Lemma CartView_post_updated env user slug q product_id p s k r0 :
  evaluate (by_slug slug) (shop_product s) = {[product_id := p]} →
  evaluate (cart_row user product_id) (profiles_orderitem s) = {[k := r0]} →
  CartView_post env user (Some (mkToggleCartItem slug q)) s
  = let r := set_updated_at (now env) (set_fields (OrderItem.set_quantity q) r0) in
    let t := profiles_orderitem s in
    if q =? 0
    then (Return (mkResponse (MessageItem "Item Removed From Cart" None) 200),
          set_profiles_orderitem
            (mkTable (delete k (<[k := r]> (rows t)))
                     ((journal t ++ [UPDATE [k]]) ++ [DELETE [k]])) s)
    else (Return (mkResponse (MessageItem "Item Updated In Cart"
                                (Some (OrderItemData (k, r)))) 200),
          set_profiles_orderitem
            (mkTable (<[k := r]> (rows t)) (journal t ++ [UPDATE [k]])) s).
Proof.
  intros Hp Hrow. destruct s as [tp ti to ts tr]. simpl in *.
  unfold CartView_post. view_step.
  rewrite (get_or_none_singleton _ _ product_id p) by done. view_step.
  rewrite (update_or_create_updates _ _ _ _ _ _ k r0) by done.
  cbn [fst snd fields OrderItem.quantity set_updated_at set_fields OrderItem.set_quantity].
  destruct (q =? 0); reflexivity.
Qed.

(** C2, as the code has it: [CartView.post] with quantity 0, for a
    product the slug resolves to.  If the user has a cart row for the
    product, the row is removed from the table; if not (and the UUID
    drawn is fresh), a row with quantity 0 is inserted and removed at
    once, so that the rows of all tables end as they were.  Both times
    the answer is "Removed" with a null item, and only the table of
    order items is written. *)
Theorem toggle_zero_removes env user slug product_id p s :
  evaluate (by_slug slug) (shop_product s) = {[product_id := p]} →
  (∀ k r0,
     evaluate (cart_row user product_id) (profiles_orderitem s) = {[k := r0]} →
     ∃ resp s',
       CartView_post env user (Some (mkToggleCartItem slug 0)) s = (Return resp, s')
       ∧ toggle_kind resp = Some Removed
       ∧ item_payload resp = None
       ∧ rows (profiles_orderitem s') = delete k (rows (profiles_orderitem s))
       ∧ rows (profiles_orderitem s') !! k = None
       ∧ evaluate (cart_row user product_id) (profiles_orderitem s') = ∅
       ∧ s' = set_profiles_orderitem (profiles_orderitem s') s)
  ∧ (evaluate (cart_row user product_id) (profiles_orderitem s) = ∅ →
     rows (profiles_orderitem s) !! uuid4 env = None →
     ∃ resp s',
       CartView_post env user (Some (mkToggleCartItem slug 0)) s = (Return resp, s')
       ∧ toggle_kind resp = Some Removed
       ∧ item_payload resp = None
       ∧ persisted s' = persisted s
       ∧ journal (profiles_orderitem s')
         = journal (profiles_orderitem s) ++ [INSERT (uuid4 env); DELETE [uuid4 env]]
       ∧ s' = set_profiles_orderitem (profiles_orderitem s') s).
Proof.
  intros Hp. split.
  - intros k r0 Hrow. eexists _, _.
    split; [by apply (CartView_post_updated _ _ _ 0 product_id p _ k r0)|].
    cbn [Z.eqb fst snd]. do 2 (split; [done|]).
    cbn [profiles_orderitem set_profiles_orderitem rows].
    rewrite delete_insert_eq. split; [done|]. split; [apply lookup_delete_eq|].
    split; [|done].
    unfold evaluate in *. cbn [rows]. by rewrite map_filter_delete, Hrow, delete_singleton_eq.
  - intros Hnone Hfresh. eexists _, _.
    split; [by apply (CartView_post_created _ _ _ 0 product_id p)|].
    cbn [Z.eqb fst snd]. do 2 (split; [done|]).
    unfold persisted. cbn [profiles_orderitem set_profiles_orderitem rows journal
      shop_product profiles_order profiles_shippingaddress shop_review].
    rewrite delete_insert_id by done. split; [done|]. split; [|done].
    by rewrite <- app_assoc.
Qed.

(** C2, as stated, fails: with no cart row for the product,
    the call with quantity 0 does insert a row (and answers with the
    status of a creation) before it deletes it. *)
Lemma toggle_zero_inserts_a_row :
  let s := mkDB (mkTable {[7%N := mkBaseModel 0 0 (Product.mk "tea")]} [])
                empty_table empty_table empty_table empty_table in
  let out := CartView_post (mkEnv 1 100%N) 1%N (Some (mkToggleCartItem "tea" 0)) s in
  evaluate (cart_row 1%N 7%N) (profiles_orderitem s) = ∅
  ∧ out.1 = Return (mkResponse (MessageItem "Item Removed From Cart" None) 201)
  ∧ journal (profiles_orderitem out.2) = [INSERT 100%N; DELETE [100%N]].
Proof. vm_compute. done. Qed.

(** C5, as the code has it: two calls of [CartView.post] with the same
    quantity [q > 0], for a product the slug resolves to and a user
    with at most one cart row for it, leave exactly one cart row for
    the pair, with quantity [q]; the second call answers "Updated"
    with that row, and all it changes in the database is the
    [updated_at] of that row, which becomes the time of the call. *)
Theorem toggle_twice_one_row env1 env2 user slug q product_id p s :
  0 < q →
  evaluate (by_slug slug) (shop_product s) = {[product_id := p]} →
  (size (evaluate (cart_row user product_id) (profiles_orderitem s)) ≤ 1)%nat →
  rows (profiles_orderitem s) !! uuid4 env1 = None →
  ∃ resp1 s1 resp2 s2 k r1,
    CartView_post env1 user (Some (mkToggleCartItem slug q)) s = (Return resp1, s1)
    ∧ CartView_post env2 user (Some (mkToggleCartItem slug q)) s1 = (Return resp2, s2)
    ∧ evaluate (cart_row user product_id) (profiles_orderitem s1) = {[k := r1]}
    ∧ evaluate (cart_row user product_id) (profiles_orderitem s2)
      = {[k := set_updated_at (now env2) r1]}
    ∧ OrderItem.quantity (fields r1) = q
    ∧ toggle_kind resp2 = Some Updated
    ∧ item_payload resp2 = Some (OrderItemData (k, set_updated_at (now env2) r1))
    ∧ rows (profiles_orderitem s2)
      = <[k := set_updated_at (now env2) r1]> (rows (profiles_orderitem s1))
    ∧ s2 = set_profiles_orderitem (profiles_orderitem s2) s1.
Proof.
  intros Hq Hp Hone Hfresh.
  assert (Hq0 : (q =? 0) = false) by (apply Z.eqb_neq; lia).
  assert (Hsecond : ∀ s1 k r1,
    evaluate (by_slug slug) (shop_product s1) = {[product_id := p]} →
    evaluate (cart_row user product_id) (profiles_orderitem s1) = {[k := r1]} →
    OrderItem.quantity (fields r1) = q →
    ∃ resp2 s2,
      CartView_post env2 user (Some (mkToggleCartItem slug q)) s1 = (Return resp2, s2)
      ∧ evaluate (cart_row user product_id) (profiles_orderitem s2)
        = {[k := set_updated_at (now env2) r1]}
      ∧ toggle_kind resp2 = Some Updated
      ∧ item_payload resp2 = Some (OrderItemData (k, set_updated_at (now env2) r1))
      ∧ rows (profiles_orderitem s2)
        = <[k := set_updated_at (now env2) r1]> (rows (profiles_orderitem s1))
      ∧ s2 = set_profiles_orderitem (profiles_orderitem s2) s1).
  { intros s1 k r1 Hp1 Hrow1 Hqty.
    assert (Hsame : set_fields (OrderItem.set_quantity q) r1 = r1).
    { destruct r1 as [c u [a b d e]]. simpl in *. by subst. }
    eexists _, _.
    rewrite (CartView_post_updated _ _ _ q product_id p _ k r1) by done.
    cbv zeta. rewrite Hq0, Hsame. split; [reflexivity|].
    cbn [fst snd profiles_orderitem set_profiles_orderitem rows].
    split; [|done].
    apply evaluate_insert; [|eauto].
    apply evaluate_singleton_lookup in Hrow1 as [_ Hsel].
    apply cart_row_true. apply cart_row_true in Hsel. by destruct r1. }
  destruct (at_most_one_row _ Hone) as [Hnone | (k & r0 & Hrow)].
  - pose (r1 := mkBaseModel (now env1) (now env1) (OrderItem.mk user None product_id q)).
    assert (Hrow1 : evaluate (cart_row user product_id)
                      (mkTable (<[uuid4 env1 := r1]> (rows (profiles_orderitem s)))
                               (journal (profiles_orderitem s) ++ [INSERT (uuid4 env1)]))
                    = {[uuid4 env1 := r1]}).
    { apply evaluate_insert; [|by left]. by apply cart_row_true. }
    destruct (Hsecond (set_profiles_orderitem
                (mkTable (<[uuid4 env1 := r1]> (rows (profiles_orderitem s)))
                         (journal (profiles_orderitem s) ++ [INSERT (uuid4 env1)])) s)
                (uuid4 env1) r1) as (resp2 & s2 & H2 & Hrest); [done..|].
    eexists _, _, resp2, s2, (uuid4 env1), r1.
    rewrite (CartView_post_created _ _ _ q product_id p) by done.
    cbv zeta. rewrite Hq0. split; [reflexivity|].
    split; [exact H2|]. split; [exact Hrow1|].
    destruct Hrest as (? & ? & ? & ? & ?). done.
  - pose (r1 := set_updated_at (now env1) (set_fields (OrderItem.set_quantity q) r0)).
    assert (Hrow1 : evaluate (cart_row user product_id)
                      (mkTable (<[k := r1]> (rows (profiles_orderitem s)))
                               (journal (profiles_orderitem s) ++ [UPDATE [k]]))
                    = {[k := r1]}).
    { apply evaluate_insert; [|eauto].
      apply evaluate_singleton_lookup in Hrow as [_ Hsel].
      apply cart_row_true. apply cart_row_true in Hsel. by destruct r0. }
    destruct (Hsecond (set_profiles_orderitem
                (mkTable (<[k := r1]> (rows (profiles_orderitem s)))
                         (journal (profiles_orderitem s) ++ [UPDATE [k]])) s)
                k r1) as (resp2 & s2 & H2 & Hrest); [done..|].
    eexists _, _, resp2, s2, k, r1.
    rewrite (CartView_post_updated _ _ _ q product_id p _ k r0) by done.
    cbv zeta. rewrite Hq0. split; [reflexivity|].
    split; [exact H2|]. split; [exact Hrow1|].
    destruct Hrest as (? & ? & ? & ? & ?). done.
Qed.

(** C5, as stated, fails: the second of two calls with the
    same quantity does change the stored row, in its [updated_at]. *)
Lemma toggle_twice_changes_updated_at :
  let s := mkDB (mkTable {[7%N := mkBaseModel 0 0 (Product.mk "tea")]} [])
                empty_table empty_table empty_table empty_table in
  let s1 := (CartView_post (mkEnv 1 100%N) 1%N (Some (mkToggleCartItem "tea" 3)) s).2 in
  let s2 := (CartView_post (mkEnv 2 101%N) 1%N (Some (mkToggleCartItem "tea" 3)) s1).2 in
  rows (profiles_orderitem s1) !! 100%N
  = Some (mkBaseModel 1 1 (OrderItem.mk 1%N None 7%N 3))
  ∧ rows (profiles_orderitem s2) !! 100%N
    = Some (mkBaseModel 1 2 (OrderItem.mk 1%N None 7%N 3))
  ∧ persisted s2 ≠ persisted s1.
Proof.
  cbv zeta. split; [by vm_compute|]. split; [by vm_compute|].
  intros Heq.
  assert (H : rows (profiles_orderitem
                (CartView_post (mkEnv 2 101%N) 1%N (Some (mkToggleCartItem "tea" 3))
                   (CartView_post (mkEnv 1 100%N) 1%N (Some (mkToggleCartItem "tea" 3))
                      (mkDB (mkTable {[7%N := mkBaseModel 0 0 (Product.mk "tea")]} [])
                            empty_table empty_table empty_table empty_table)).2).2) !! 100%N
              = rows (profiles_orderitem
                   (CartView_post (mkEnv 1 100%N) 1%N (Some (mkToggleCartItem "tea" 3))
                      (mkDB (mkTable {[7%N := mkBaseModel 0 0 (Product.mk "tea")]} [])
                            empty_table empty_table empty_table empty_table)).2) !! 100%N).
  { unfold persisted in Heq. congruence. }
  vm_compute in H. discriminate.
Qed.

(** ** Reviews *)

Lemma review_of_true user product_id (x : Instance Review.t) :
  review_of user product_id x = true
  ↔ Review.user (fields x.2) = user ∧ Review.product (fields x.2) = product_id.
Proof. unfold review_of, filter_, all. simpl. apply bool_decide_eq_true. Qed.

Lemma review_by_true pk user (x : Instance Review.t) :
  review_by pk user x = true ↔ x.1 = pk ∧ Review.user (fields x.2) = user.
Proof. unfold review_by, filter_, all. simpl. apply bool_decide_eq_true. Qed.

(** [ReviewViewsPost.post] for a stored product the user has not
    reviewed: the review is inserted. *)
Lemma ReviewViewsPost_post_created env user product_id p rating text s :
  rows (shop_product s) !! product_id = Some p →
  evaluate (review_of user product_id) (shop_review s) = ∅ →
  rows (shop_review s) !! uuid4 env = None →
  ReviewViewsPost_post env user (Some (mkReviewRequest product_id rating text)) s
  = let r := mkBaseModel (now env) (now env) (Review.mk user product_id rating text) in
    (Return (mkResponse (Serialized (ReviewData (uuid4 env, r))) 201),
     set_shop_review
       (mkTable (<[uuid4 env := r]> (rows (shop_review s)))
                (journal (shop_review s) ++ [INSERT (uuid4 env)])) s).
Proof.
  intros Hp Hnone Hfresh. destruct s as [tp ti to ts tr]. simpl in *.
  unfold ReviewViewsPost_post. view_step.
  rewrite (get_singleton _ _ product_id p) by by apply evaluate_by_id_Some. view_step.
  rewrite update_or_create_creates by done. reflexivity.
Qed.

(** [ReviewViewsPost.post] for a stored product the user has one
    review of: the review gets the rating and the text. *)
Lemma ReviewViewsPost_post_updated env user product_id p rating text s k r0 :
  rows (shop_product s) !! product_id = Some p →
  evaluate (review_of user product_id) (shop_review s) = {[k := r0]} →
  ReviewViewsPost_post env user (Some (mkReviewRequest product_id rating text)) s
  = let r := set_updated_at (now env) (set_fields (Review.set_defaults rating text) r0) in
    (Return (mkResponse (Serialized (ReviewData (k, r))) 200),
     set_shop_review
       (mkTable (<[k := r]> (rows (shop_review s)))
                (journal (shop_review s) ++ [UPDATE [k]])) s).
Proof.
  intros Hp Hrow. destruct s as [tp ti to ts tr]. simpl in *.
  unfold ReviewViewsPost_post. view_step.
  rewrite (get_singleton _ _ product_id p) by by apply evaluate_by_id_Some. view_step.
  rewrite (update_or_create_updates _ _ _ _ _ _ k r0) by done. reflexivity.
Qed.

(** C6: for a stored product the user has not reviewed yet (and a
    fresh UUID), two calls of [ReviewViewsPost.post] leave exactly one
    review of the product by the user, holding the rating and the text
    of the second call; the first call answers 201 (created) and the
    second 200 (updated), each with the review as stored after it. *)
Theorem submit_review_twice env1 env2 user product_id p rating1 text1 rating2 text2 s :
  rows (shop_product s) !! product_id = Some p →
  evaluate (review_of user product_id) (shop_review s) = ∅ →
  rows (shop_review s) !! uuid4 env1 = None →
  ∃ resp1 s1 resp2 s2 k r1 r2,
    ReviewViewsPost_post env1 user (Some (mkReviewRequest product_id rating1 text1)) s
    = (Return resp1, s1)
    ∧ ReviewViewsPost_post env2 user (Some (mkReviewRequest product_id rating2 text2)) s1
      = (Return resp2, s2)
    ∧ review_kind resp1 = Some Created
    ∧ data resp1 = Serialized (ReviewData (k, r1))
    ∧ rows (shop_review s1) !! k = Some r1
    ∧ Review.rating (fields r1) = rating1 ∧ Review.text (fields r1) = text1
    ∧ review_kind resp2 = Some Updated
    ∧ data resp2 = Serialized (ReviewData (k, r2))
    ∧ rows (shop_review s2) !! k = Some r2
    ∧ evaluate (review_of user product_id) (shop_review s2) = {[k := r2]}
    ∧ size (evaluate (review_of user product_id) (shop_review s2)) = 1%nat
    ∧ Review.rating (fields r2) = rating2 ∧ Review.text (fields r2) = text2
    ∧ rows (shop_review s2) = <[k := r2]> (rows (shop_review s)).
Proof.
  intros Hp Hnone Hfresh.
  pose (r1 := mkBaseModel (now env1) (now env1) (Review.mk user product_id rating1 text1)).
  pose (r2 := set_updated_at (now env2) (set_fields (Review.set_defaults rating2 text2) r1)).
  pose (t1 := mkTable (<[uuid4 env1 := r1]> (rows (shop_review s)))
                      (journal (shop_review s) ++ [INSERT (uuid4 env1)])).
  assert (Hrow1 : evaluate (review_of user product_id) t1 = {[uuid4 env1 := r1]}).
  { apply evaluate_insert; [|by left]. by apply review_of_true. }
  assert (Hrow2 : evaluate (review_of user product_id)
                    (mkTable (<[uuid4 env1 := r2]> (rows t1)) (journal t1 ++ [UPDATE [uuid4 env1]]))
                  = {[uuid4 env1 := r2]}).
  { apply evaluate_insert; [|eauto]. by apply review_of_true. }
  eexists _, _, _, _, (uuid4 env1), r1, r2.
  rewrite (ReviewViewsPost_post_created _ _ _ p) by done. cbv zeta.
  split; [reflexivity|].
  rewrite (ReviewViewsPost_post_updated _ _ _ p _ _ _ (uuid4 env1) r1) by done. cbv zeta.
  split; [reflexivity|].
  cbn [shop_review set_shop_review rows data]. fold r1 r2 t1.
  do 2 (split; [done|]). split; [apply lookup_insert_eq|]. do 2 (split; [done|]).
  do 2 (split; [done|]). split; [apply lookup_insert_eq|].
  split; [exact Hrow2|].
  split; [pose proof (f_equal size Hrow2) as Hsz; by rewrite map_size_singleton in Hsz|].
  do 2 (split; [done|]). apply insert_insert_eq.
Qed.

Lemma QuerySet_delete_lookup {F} (qs : @QuerySet F) (t : Table F) pk :
  rows (QuerySet_delete qs t).2 !! pk
  = r ← rows t !! pk; if qs (pk, r) then None else Some r.
Proof.
  cbn [QuerySet_delete snd rows]. rewrite map_lookup_filter.
  destruct (rows t !! pk) as [r0|]; [|done]. simpl.
  destruct (qs (pk, r0)) eqn:Hq.
  - rewrite option_guard_False; [done|]. simpl. tauto.
  - rewrite option_guard_True; [done|]. simpl. tauto.
Qed.

(** C9: [ReviewViewsDelete.delete] answers 200 and writes the table of
    reviews only; the rows it removes are those whose id is the one
    asked for and whose user is the caller, every other review stays
    as it was; so if the review asked for belongs to another user, the
    rows of all tables are as they were. *)
Theorem delete_review_only_own user review_id s :
  ∃ s',
    ReviewViewsDelete_delete user review_id s
    = (Return (mkResponse (Message "Product deleted successfully") 200), s')
    ∧ s' = set_shop_review (shop_review s') s
    ∧ (∀ pk, rows (shop_review s') !! pk
             = r ← rows (shop_review s) !! pk;
               if bool_decide (pk = review_id ∧ Review.user (fields r) = user)
               then None else Some r)
    ∧ (∀ r, rows (shop_review s) !! review_id = Some r →
            Review.user (fields r) ≠ user →
            persisted s' = persisted s).
Proof.
  eexists. split; [reflexivity|].
  cbn [shop_review set_shop_review]. split; [done|].
  assert (Hlook : ∀ pk,
    rows (QuerySet_delete (review_by review_id user) (shop_review s)).2 !! pk
    = r ← rows (shop_review s) !! pk;
      if bool_decide (pk = review_id ∧ Review.user (fields r) = user)
      then None else Some r).
  { intros pk. rewrite QuerySet_delete_lookup.
    destruct (rows (shop_review s) !! pk) as [r|]; [|done]. simpl.
    unfold review_by, filter_, all. by simpl. }
  split; [exact Hlook|].
  intros r Hr Huser. unfold persisted.
  cbn [shop_product profiles_orderitem profiles_order profiles_shippingaddress shop_review].
  f_equal. apply map_eq. intros pk.
  etrans; [apply Hlook|].
  destruct (rows (shop_review s) !! pk) as [r'|] eqn:Hr'; [|done]. simpl.
  rewrite bool_decide_eq_false_2; [done|]. intros [-> Hu]. congruence.
Qed.

(** ** The invariant of the cart *)

Lemma cart_row_key user product_id user' product_id' (x : N * BaseModel OrderItem.t) :
  cart_row user product_id x = true → cart_row user' product_id' x = true →
  user' = user ∧ product_id' = product_id.
Proof. rewrite !cart_row_true. intros (? & ? & ?) (? & ? & ?). split; congruence. Qed.

Lemma cart_unique_insert (t : Table OrderItem.t) user product_id k r j :
  cart_unique t → cart_row user product_id (k, r) = true →
  evaluate (cart_row user product_id) t = ∅
  ∨ (∃ r0, evaluate (cart_row user product_id) t = {[k := r0]}) →
  cart_unique (mkTable (<[k := r]> (rows t)) j).
Proof.
  intros Hu Hq Hsel user' product_id'.
  destruct (cart_row user' product_id' (k, r)) eqn:Hq'.
  - destruct (cart_row_key _ _ _ _ _ Hq Hq') as [-> ->].
    by rewrite (evaluate_insert _ t), map_size_singleton.
  - pose proof (size_evaluate_insert (cart_row user' product_id') t k r j) as Hle.
    rewrite Hq' in Hle. specialize (Hu user' product_id'). lia.
Qed.

Lemma cart_unique_delete (t : Table OrderItem.t) k j :
  cart_unique t → cart_unique (mkTable (delete k (rows t)) j).
Proof.
  intros Hu user product_id.
  pose proof (size_evaluate_delete (cart_row user product_id) t k j).
  specialize (Hu user product_id). lia.
Qed.

Lemma cart_unique_journal (t : Table OrderItem.t) j :
  cart_unique t → cart_unique (mkTable (rows t) j).
Proof. intros Hu user product_id. apply Hu. Qed.

Lemma CartView_post_cart_unique env user request_data s :
  cart_unique (profiles_orderitem s) →
  cart_unique (profiles_orderitem (CartView_post env user request_data s).2).
Proof.
  intros Hu. destruct s as [tp ti to ts tr]. cbn [profiles_orderitem] in Hu.
  destruct request_data as [[slug q]|]; [|exact Hu].
  unfold CartView_post. view_step.
  destruct (get_or_none_cases (by_slug slug) tp) as [(e & ->) | [-> | (pid & p & _ & ->)]];
    [exact Hu..|].
  view_step.
  destruct (update_or_create_cases (cart_row user pid) (OrderItem.mk user None pid q)
              (OrderItem.set_quantity q) (uuid4 env) (now env) ti)
    as [(e & ->) | [(Hnone & Hfresh & ->) | (k & r & Hrow & ->)]]; [exact Hu| |].
  - assert (Hins : cart_unique
              (mkTable (<[uuid4 env := mkBaseModel (now env) (now env)
                                         (OrderItem.mk user None pid q)]> (rows ti))
                       (journal ti ++ [INSERT (uuid4 env)]))).
    { apply (cart_unique_insert _ user pid); [done| by apply cart_row_true | by left]. }
    cbn [fst snd fields OrderItem.quantity]. destruct (q =? 0); [|exact Hins].
    exact (cart_unique_delete _ (uuid4 env) _ Hins).
  - assert (Hins : cart_unique
              (mkTable (<[k := set_updated_at (now env)
                                 (set_fields (OrderItem.set_quantity q) r)]> (rows ti))
                       (journal ti ++ [UPDATE [k]]))).
    { apply (cart_unique_insert _ user pid); [done| |eauto].
      apply evaluate_singleton_lookup in Hrow as [_ Hsel].
      apply cart_row_true. apply cart_row_true in Hsel. by destruct r. }
    cbn [fst snd fields OrderItem.quantity set_updated_at set_fields OrderItem.set_quantity].
    destruct (q =? 0); [|exact Hins].
    exact (cart_unique_delete _ k _ Hins).
Qed.

Lemma update_cart_unique (t : Table OrderItem.t) user o :
  cart_unique t → cart_unique (update (cart user) (OrderItem.set_order (Some o)) t).2.
Proof.
  intros Hu user' product_id. etrans; [|apply (Hu user' product_id)].
  apply map_subseteq_size, map_subseteq_spec. intros k r' [Hr' Hq']%evaluate_lookup.
  apply evaluate_lookup. rewrite update_lookup in Hr'.
  destruct (rows t !! k) as [r|] eqn:Hr; [|done]. simpl in Hr'. injection Hr' as <-.
  destruct (cart user (k, r)) eqn:Hq; [|done].
  apply cart_row_true in Hq'. simpl in Hq'. by destruct Hq' as (_ & ? & _).
Qed.

Lemma CheckoutView_post_orderitems env user request_data s :
  profiles_orderitem (CheckoutView_post env user request_data s).2 = profiles_orderitem s
  ∨ profiles_orderitem (CheckoutView_post env user request_data s).2
    = (update (cart user) (OrderItem.set_order (Some (uuid4 env))) (profiles_orderitem s)).2.
Proof.
  destruct s as [tp ti to ts tr].
  unfold CheckoutView_post, exists_. view_step.
  destruct (bool_decide (evaluate (cart user) ti ≠ ∅)); [|by left].
  view_step. destruct request_data as [[[sid|]]|]; [| by left..].
  view_step.
  destruct (get_or_none_cases (by_id sid) ts) as [(e & ->) | [-> | (k & sh & _ & ->)]];
    [by left..|].
  destruct (rows to !! uuid4 env) as [o|] eqn:Hfresh.
  - left. unfold CheckoutView_post_order, Order_objects, zoom, bind, create.
    simpl. by rewrite Hfresh.
  - right. by rewrite CheckoutView_post_order_bound.
Qed.

(** The views keep the cart invariant: from a database that satisfies
    it they only lead to databases that do. *)
Theorem reachable_cart_unique s0 s :
  cart_unique (profiles_orderitem s0) → reachable s0 s → cart_unique (profiles_orderitem s).
Proof.
  intros H0 Hreach. induction Hreach as [|s env c _ IH]; [done|].
  destruct c as [user d | user d | user d | user pk]; cbn [run].
  - by apply CartView_post_cart_unique.
  - destruct (CheckoutView_post_orderitems env user d s) as [-> | ->]; [done|].
    by apply update_cart_unique.
  - enough (profiles_orderitem (ReviewViewsPost_post env user d s).2 = profiles_orderitem s)
      as -> by done.
    destruct s as [tp ti to ts tr]. destruct d as [[pid rating text]|]; [|done].
    unfold ReviewViewsPost_post. view_step.
    destruct (get (by_id pid) tp) as [[x|e] tp']; [|by destruct (bool_decide _)].
    view_step.
    destruct (update_or_create _ _ _ _ _ _) as [[[rev []]|e] tr']; done.
  - by destruct s.
Qed.

(** ** The theorems on the example databases *)

(** C3 on the example: entity 4 of [example_store] is deleted at time 9. *)
Lemma soft_delete_hides_entity_witness :
  (rows (table example_store) !! example_instance.1 = Some example_row)
  ∧ (∃ self' s' r',
      IsDeletedModel_delete 9 example_instance example_store = (Return self', s')
      ∧ (∀ x, x ∈ fetch get_queryset (table s') → x.1 ≠ example_instance.1)
      ∧ (∀ cond x, x ∈ fetch (filter_ get_queryset cond) (table s') → x.1 ≠ example_instance.1)
      ∧ (example_instance.1, r') ∈ fetch unfiltered (table s')
      ∧ deleted_at (fields r') = Some 9
      ∧ deleted_at (fields r') ≠ None).
Proof.
  assert (H1 : rows (table example_store) !! example_instance.1 = Some example_row)
    by (by vm_compute).
  split; [done|].
  exact (soft_delete_hides_entity 9 example_instance example_store example_row H1).
Defined.

(** C8 on the example: entity 4 of [example_store] is deleted at time 9 through
    an instance whose timestamps in memory are stale, and entity 6
    through a queryset. *)
Lemma soft_delete_frame_witness :
  (rows (table example_store) !! example_instance.1 = Some example_row)
  ∧ ((∃ self' s' r',
       IsDeletedModel_delete 9 example_instance example_store = (Return self', s')
       ∧ related s' = related example_store
       ∧ rows (table s') = <[example_instance.1 := r']> (rows (table example_store))
       ∧ is_deleted (fields r') = true
       ∧ deleted_at (fields r') = Some 9
       ∧ own (fields r') = own (fields example_row)
       ∧ created_at r' = created_at example_row
       ∧ updated_at r' = updated_at example_row
       ∧ journal (table s') = journal (table example_store) ++ [UPDATE [example_instance.1]])
    ∧ (∃ n s',
       IsDeletedQuerySet_delete (λ _ u, u) (by_id 6%N) false 9 example_store = (Return n, s')
       ∧ related s' = related example_store
       ∧ ∀ pk, rows (table s') !! pk
               = (λ r0, if (by_id 6%N) (pk, r0)
                        then mkBaseModel (created_at r0) (updated_at r0)
                               (mkIsDeleted true (Some 9) (own (fields r0)))
                        else r0) <$> rows (table example_store) !! pk)).
Proof.
  assert (H1 : rows (table example_store) !! example_instance.1 = Some example_row)
    by (by vm_compute).
  split; [done|].
  exact (soft_delete_frame (λ _ u, u) 9 example_instance (by_id 6%N) example_store example_row H1).
Defined.

(** C1 on the example: user 1 checks out the cart of [cart_db] to address 9. *)
Lemma checkout_creates_order_witness :
  (evaluate (cart 1%N) (profiles_orderitem cart_db) ≠ ∅
   ∧ rows (profiles_shippingaddress cart_db) !! 9%N = Some example_address
   ∧ rows (profiles_order cart_db) !! uuid4 (mkEnv 3 102%N) = None)
  ∧ (∃ order s',
      CheckoutView_post (mkEnv 3 102%N) 1%N (Some (mkCheckout (Some 9%N))) cart_db
      = (Return (mkResponse (MessageItem "Checkout Successful"
                               (Some (OrderData (uuid4 (mkEnv 3 102%N), order)))) 200), s')
      ∧ rows (profiles_order s') = <[uuid4 (mkEnv 3 102%N) := order]> (rows (profiles_order cart_db))
      ∧ size (rows (profiles_order s')) = S (size (rows (profiles_order cart_db)))
      ∧ Order.user (fields order) = 1%N
      ∧ Order.full_name (fields order) = Some (ShippingAddress.full_name (fields example_address))
      ∧ Order.email (fields order) = Some (ShippingAddress.email (fields example_address))
      ∧ Order.phone (fields order) = Some (ShippingAddress.phone (fields example_address))
      ∧ Order.address (fields order) = Some (ShippingAddress.address (fields example_address))
      ∧ Order.city (fields order) = Some (ShippingAddress.city (fields example_address))
      ∧ Order.country (fields order) = Some (ShippingAddress.country (fields example_address))
      ∧ Order.zipcode (fields order) = Some (ShippingAddress.zipcode (fields example_address))
      ∧ (∀ pk r, evaluate (cart 1%N) (profiles_orderitem cart_db) !! pk = Some r →
           rows (profiles_orderitem s') !! pk
           = Some (set_fields (OrderItem.set_order (Some (uuid4 (mkEnv 3 102%N)))) r))
      ∧ (∀ pk, evaluate (cart 1%N) (profiles_orderitem cart_db) !! pk = None →
           rows (profiles_orderitem s') !! pk = rows (profiles_orderitem cart_db) !! pk)
      ∧ evaluate (cart 1%N) (profiles_orderitem s') = ∅
      ∧ rows (shop_product s') = rows (shop_product cart_db)
      ∧ rows (profiles_shippingaddress s') = rows (profiles_shippingaddress cart_db)
      ∧ rows (shop_review s') = rows (shop_review cart_db)).
Proof.
  assert (H1 : evaluate (cart 1%N) (profiles_orderitem cart_db) ≠ ∅)
    by (by vm_compute).
  assert (H2 : rows (profiles_shippingaddress cart_db) !! 9%N = Some example_address)
    by (by vm_compute).
  assert (H3 : rows (profiles_order cart_db) !! uuid4 (mkEnv 3 102%N) = None)
    by (by vm_compute).
  split; [done|].
  exact (checkout_creates_order (mkEnv 3 102%N) 1%N 9%N example_address cart_db H1 H2 H3).
Defined.

(** C4 on the example: user 1 has no cart in [shop_db]. *)
Lemma checkout_empty_cart_witness :
  (evaluate (cart 1%N) (profiles_orderitem shop_db) = ∅)
  ∧ (CheckoutView_post (mkEnv 3 102%N) 1%N None shop_db
    = (Return (mkResponse (Message "No Items in Cart") 404), shop_db)).
Proof.
  assert (H1 : evaluate (cart 1%N) (profiles_orderitem shop_db) = ∅)
    by (by vm_compute).
  split; [done|].
  exact (checkout_empty_cart (mkEnv 3 102%N) 1%N None shop_db H1).
Defined.

(** C10 on the example: user 1 checks out the cart of [cart_db] without a shipping id. *)
Lemma checkout_without_shipping_id_witness :
  (evaluate (cart 1%N) (profiles_orderitem cart_db) ≠ ∅)
  ∧ (CheckoutView_post (mkEnv 3 102%N) 1%N (Some (mkCheckout None)) cart_db
    = (Raise (UnboundLocalError "shipping"), cart_db)).
Proof.
  assert (H1 : evaluate (cart 1%N) (profiles_orderitem cart_db) ≠ ∅)
    by (by vm_compute).
  split; [done|].
  exact (checkout_without_shipping_id (mkEnv 3 102%N) 1%N cart_db H1).
Defined.

(** C5 on the example: user 1 puts 3 of "tea" in the cart twice. *)
Lemma toggle_twice_one_row_witness :
  (0 < 3
   ∧ evaluate (by_slug "tea") (shop_product shop_db) = {[7%N := example_product]}
   ∧ (size (evaluate (cart_row 1%N 7%N) (profiles_orderitem shop_db)) ≤ 1)%nat
   ∧ rows (profiles_orderitem shop_db) !! uuid4 (mkEnv 1 100%N) = None)
  ∧ (∃ resp1 s1 resp2 s2 k r1,
      CartView_post (mkEnv 1 100%N) 1%N (Some (mkToggleCartItem "tea" 3)) shop_db = (Return resp1, s1)
      ∧ CartView_post (mkEnv 2 101%N) 1%N (Some (mkToggleCartItem "tea" 3)) s1 = (Return resp2, s2)
      ∧ evaluate (cart_row 1%N 7%N) (profiles_orderitem s1) = {[k := r1]}
      ∧ evaluate (cart_row 1%N 7%N) (profiles_orderitem s2)
        = {[k := set_updated_at (now (mkEnv 2 101%N)) r1]}
      ∧ OrderItem.quantity (fields r1) = 3
      ∧ toggle_kind resp2 = Some Updated
      ∧ item_payload resp2 = Some (OrderItemData (k, set_updated_at (now (mkEnv 2 101%N)) r1))
      ∧ rows (profiles_orderitem s2)
        = <[k := set_updated_at (now (mkEnv 2 101%N)) r1]> (rows (profiles_orderitem s1))
      ∧ s2 = set_profiles_orderitem (profiles_orderitem s2) s1).
Proof.
  assert (H1 : 0 < 3)
    by lia.
  assert (H2 : evaluate (by_slug "tea") (shop_product shop_db) = {[7%N := example_product]})
    by (by vm_compute).
  assert (H3 : (size (evaluate (cart_row 1%N 7%N) (profiles_orderitem shop_db)) ≤ 1)%nat)
    by (vm_compute; lia).
  assert (H4 : rows (profiles_orderitem shop_db) !! uuid4 (mkEnv 1 100%N) = None)
    by (by vm_compute).
  split; [done|].
  exact (toggle_twice_one_row (mkEnv 1 100%N) (mkEnv 2 101%N) 1%N "tea" 3 7%N example_product shop_db H1 H2 H3 H4).
Defined.

(** C6 on the example: user 1 reviews "tea" twice. *)
Lemma submit_review_twice_witness :
  (rows (shop_product shop_db) !! 7%N = Some example_product
   ∧ evaluate (review_of 1%N 7%N) (shop_review shop_db) = ∅
   ∧ rows (shop_review shop_db) !! uuid4 (mkEnv 1 100%N) = None)
  ∧ (∃ resp1 s1 resp2 s2 k r1 r2,
      ReviewViewsPost_post (mkEnv 1 100%N) 1%N (Some (mkReviewRequest 7%N 2 "bitter")) shop_db
      = (Return resp1, s1)
      ∧ ReviewViewsPost_post (mkEnv 2 101%N) 1%N (Some (mkReviewRequest 7%N 5 "superb")) s1
        = (Return resp2, s2)
      ∧ review_kind resp1 = Some Created
      ∧ data resp1 = Serialized (ReviewData (k, r1))
      ∧ rows (shop_review s1) !! k = Some r1
      ∧ Review.rating (fields r1) = 2 ∧ Review.text (fields r1) = "bitter"
      ∧ review_kind resp2 = Some Updated
      ∧ data resp2 = Serialized (ReviewData (k, r2))
      ∧ rows (shop_review s2) !! k = Some r2
      ∧ evaluate (review_of 1%N 7%N) (shop_review s2) = {[k := r2]}
      ∧ size (evaluate (review_of 1%N 7%N) (shop_review s2)) = 1%nat
      ∧ Review.rating (fields r2) = 5 ∧ Review.text (fields r2) = "superb"
      ∧ rows (shop_review s2) = <[k := r2]> (rows (shop_review shop_db))).
Proof.
  assert (H1 : rows (shop_product shop_db) !! 7%N = Some example_product)
    by (by vm_compute).
  assert (H2 : evaluate (review_of 1%N 7%N) (shop_review shop_db) = ∅)
    by (by vm_compute).
  assert (H3 : rows (shop_review shop_db) !! uuid4 (mkEnv 1 100%N) = None)
    by (by vm_compute).
  split; [done|].
  exact (submit_review_twice (mkEnv 1 100%N) (mkEnv 2 101%N) 1%N 7%N example_product 2 "bitter" 5 "superb" shop_db H1 H2 H3).
Defined.

(** C2 on the examples: user 1 sets the quantity of "tea" to 0, with
    the cart of [cart_db] and with no cart ([shop_db]). *)
Lemma toggle_zero_removes_witness :
  (evaluate (by_slug "tea") (shop_product cart_db) = {[7%N := example_product]}
   ∧ evaluate (cart_row 1%N 7%N) (profiles_orderitem cart_db) = {[100%N := example_item]}
   ∧ evaluate (by_slug "tea") (shop_product shop_db) = {[7%N := example_product]}
   ∧ evaluate (cart_row 1%N 7%N) (profiles_orderitem shop_db) = ∅
   ∧ rows (profiles_orderitem shop_db) !! uuid4 (mkEnv 2 101%N) = None)
  ∧ (∃ resp s',
    CartView_post (mkEnv 2 101%N) 1%N (Some (mkToggleCartItem "tea" 0)) cart_db = (Return resp, s')
    ∧ toggle_kind resp = Some Removed
    ∧ item_payload resp = None
    ∧ rows (profiles_orderitem s') = delete 100%N (rows (profiles_orderitem cart_db))
    ∧ rows (profiles_orderitem s') !! 100%N = None
    ∧ evaluate (cart_row 1%N 7%N) (profiles_orderitem s') = ∅
    ∧ s' = set_profiles_orderitem (profiles_orderitem s') cart_db)
  ∧ (∃ resp s',
    CartView_post (mkEnv 2 101%N) 1%N (Some (mkToggleCartItem "tea" 0)) shop_db = (Return resp, s')
    ∧ toggle_kind resp = Some Removed
    ∧ item_payload resp = None
    ∧ persisted s' = persisted shop_db
    ∧ journal (profiles_orderitem s')
      = journal (profiles_orderitem shop_db) ++ [INSERT (uuid4 (mkEnv 2 101%N)); DELETE [uuid4 (mkEnv 2 101%N)]]
    ∧ s' = set_profiles_orderitem (profiles_orderitem s') shop_db).
Proof.
  assert (H1 : evaluate (by_slug "tea") (shop_product cart_db) = {[7%N := example_product]})
    by (by vm_compute).
  assert (H2 : evaluate (cart_row 1%N 7%N) (profiles_orderitem cart_db) = {[100%N := example_item]})
    by (by vm_compute).
  assert (H3 : evaluate (by_slug "tea") (shop_product shop_db) = {[7%N := example_product]})
    by (by vm_compute).
  assert (H4 : evaluate (cart_row 1%N 7%N) (profiles_orderitem shop_db) = ∅)
    by (by vm_compute).
  assert (H5 : rows (profiles_orderitem shop_db) !! uuid4 (mkEnv 2 101%N) = None)
    by (by vm_compute).
  split; [done|]. split.
  - exact (proj1 (toggle_zero_removes (mkEnv 2 101%N) 1%N "tea" 7%N example_product cart_db H1) 100%N example_item H2).
  - exact (proj2 (toggle_zero_removes (mkEnv 2 101%N) 1%N "tea" 7%N example_product shop_db H3) H4 H5).
Defined.

(** C9 on the example: user 1 asks to delete review 50 of
    [review_db], which is by user 2. *)
Lemma delete_review_only_own_witness :
  (rows (shop_review review_db) !! 50%N = Some example_review
   ∧ Review.user (fields example_review) ≠ 1%N)
  ∧ (∃ s',
      ReviewViewsDelete_delete 1%N 50%N review_db
      = (Return (mkResponse (Message "Product deleted successfully") 200), s')
      ∧ persisted s' = persisted review_db).
Proof.
  assert (H1 : rows (shop_review review_db) !! 50%N = Some example_review)
    by (by vm_compute).
  assert (H2 : Review.user (fields example_review) ≠ 1%N)
    by (by vm_compute).
  split; [done|].
  destruct (delete_review_only_own 1%N 50%N review_db) as (s' & Hrun & _ & _ & Hsame).
  exists s'. split; [exact Hrun | exact (Hsame example_review H1 H2)].
Defined.

(** * Further properties *)

(** ** The soft-delete layer: edge cases, hard deletion, invariants *)

Section IsDeletedModel_more.
Context {F R : Type}.
Implicit Types (s : @Store F R) (self : Instance (IsDeleted F))
  (r : BaseModel (IsDeleted F)) (qs : @QuerySet (IsDeleted F))
  (t : Table (IsDeleted F)).

Lemma IsDeletedModel_delete_missing now self s :
  rows (table s) !! self.1 = None →
  IsDeletedModel_delete now self s = (Raise DatabaseError, s).
Proof.
  intros Hnone. destruct s as [t rel]. cbn [table] in Hnone.
  unfold IsDeletedModel_delete, bind, zoom, save_update_fields.
  cbn [fst snd table]. by rewrite Hnone.
Qed.



Lemma soft_update_lookup now qs t pk :
  rows (update qs (λ f, mkIsDeleted true (Some now) (own f)) t).2 !! pk
  = (λ r, if qs (pk, r) then soft_deleted now r else r) <$> rows t !! pk.
Proof. apply update_lookup. Qed.

(** X2: a soft [delete()] of the default queryset (all rows not yet
    deleted) returns their number and marks each of them; the rows
    deleted earlier keep the time of their own deletion; no row
    leaves the table, none is returned by the default queryset any
    more, and the related rows are not touched. *)
Theorem default_queryset_soft_delete (on_delete : N → R → R) now s :
  ∃ s',
    IsDeletedQuerySet_delete on_delete get_queryset false now s
    = (Return (size (evaluate get_queryset (table s))), s')
    ∧ (∀ pk, rows (table s') !! pk
             = (λ r, if is_deleted (fields r) then r else soft_deleted now r)
               <$> rows (table s) !! pk)
    ∧ dom (rows (table s')) = dom (rows (table s))
    ∧ evaluate get_queryset (table s') = ∅
    ∧ related s' = related s.
Proof.
  eexists. split; [reflexivity|]. cbn [snd table related with_table].
  assert (Hlook : ∀ pk,
    rows (update get_queryset (λ f, mkIsDeleted true (Some now) (own f)) (table s)).2 !! pk
    = (λ r, if is_deleted (fields r) then r else soft_deleted now r)
      <$> rows (table s) !! pk).
  { intros pk. rewrite soft_update_lookup.
    destruct (rows (table s) !! pk) as [r|]; [|done]. simpl.
    destruct (get_queryset (pk, r)) eqn:Hq.
    - apply get_queryset_true in Hq. simpl in Hq. by rewrite Hq.
    - destruct (is_deleted (fields r)) eqn:Hd; [done|].
      assert (get_queryset (pk, r) = true) by by apply get_queryset_true.
      congruence. }
  split; [exact Hlook|]. split; [|split; [|done]].
  - apply set_eq. intros pk. rewrite !elem_of_dom, Hlook.
    by rewrite fmap_is_Some.
  - apply map_eq. intros pk. rewrite lookup_empty. apply eq_None_not_Some.
    intros [r' [Hr' Hq]%evaluate_lookup]. rewrite Hlook in Hr'.
    apply get_queryset_true in Hq. simpl in Hq.
    destruct (rows (table s) !! pk) as [r|]; [|done]. simpl in Hr'.
    injection Hr' as <-. destruct (is_deleted (fields r)) eqn:Hd; [congruence|done].
Qed.

Lemma filter_not_all_empty (m : gmap N (BaseModel (IsDeleted F))) :
  filter (λ x : N * BaseModel (IsDeleted F), ¬ Is_true (all x)) m = ∅.
Proof.
  apply map_eq. intros pk. rewrite lookup_empty. apply eq_None_not_Some.
  intros [r [_ Hn]%map_lookup_filter_Some]. by apply Hn.
Qed.

Lemma IsDeletedManager_hard_delete_rows (on_delete : N → R → R) now s :
  rows (table (IsDeletedManager_hard_delete on_delete now s).2) = ∅.
Proof. cbn. apply filter_not_all_empty. Qed.


End IsDeletedModel_more.

Section IsDeletedModel_reads.
Context {F R : Type}.
Implicit Types (s : @Store F R) (r : BaseModel (IsDeleted F))
  (qs : @QuerySet (IsDeleted F)) (t : Table (IsDeleted F)).

Lemma StronglySorted_list_filter {A} (rel : relation A) (P : A → Prop)
    `{!∀ x, Decision (P x)} (l : list A) :
  StronglySorted rel l → StronglySorted rel (filter P l).
Proof.
  induction 1 as [|x l Hl IH Hx]; [constructor|].
  rewrite filter_cons. destruct (decide (P x)); [|exact IH].
  constructor; [exact IH|]. rewrite Forall_forall in Hx |- *.
  intros y [_ Hy]%list_elem_of_filter. by apply Hx.
Qed.

(** X4: what a default read returns is what an unfiltered read
    returns without the soft-deleted rows, in the same order. *)
Theorem default_read_is_unfiltered_read_without_deleted t :
  fetch get_queryset t
  = filter (λ x, is_deleted (fields x.2) = false) (fetch unfiltered t).
Proof.
  pose proof (@ordering_trans F) as Htrans. pose proof (@ordering_total F) as Htotal.
  apply (StronglySorted_unique_strong ordering).
  - intros [k1 r1] [k2 r2] [Hr1 _]%elem_of_fetch [_ [Hr2 _]%elem_of_fetch]%list_elem_of_filter.
    unfold ordering. simpl in *. intros H1 H2.
    assert (k1 = k2) as -> by lia. congruence.
  - by apply StronglySorted_merge_sort.
  - apply StronglySorted_list_filter. by apply StronglySorted_merge_sort.
  - apply NoDup_Permutation.
    + unfold fetch. rewrite merge_sort_Permutation. apply NoDup_map_to_list.
    + apply NoDup_filter. unfold fetch. rewrite merge_sort_Permutation.
      apply NoDup_map_to_list.
    + intros x. rewrite list_elem_of_filter, !elem_of_fetch, get_queryset_true.
      unfold unfiltered, all. tauto.
Qed.

End IsDeletedModel_reads.

Section IsDeletedModel_invariants.
Context {F R : Type}.
Variable on_delete : N → R → R.
Implicit Types (s : @Store F R) (r : BaseModel (IsDeleted F)).

(** What any of the four deletions does to a row: it leaves it, it
    removes it, or it marks it. *)
Lemma perform_row now (op : @Operation F) s pk :
  rows (table (perform on_delete now op s)) !! pk = rows (table s) !! pk
  ∨ rows (table (perform on_delete now op s)) !! pk = None
  ∨ ∃ r, rows (table s) !! pk = Some r
         ∧ rows (table (perform on_delete now op s)) !! pk = Some (soft_deleted now r).
Proof.
  destruct op as [self | self | qs [] | ]; cbn [perform].
  - destruct (rows (table s) !! self.1) as [r|] eqn:Hr.
    + rewrite (IsDeletedModel_delete_eq now self s r Hr). cbn [snd table rows].
      destruct (decide (pk = self.1)) as [->|Hne].
      * right. right. exists r. by rewrite lookup_insert_eq.
      * left. by rewrite lookup_insert_ne.
    + left. by rewrite IsDeletedModel_delete_missing.
  - cbn [IsDeletedModel_hard_delete super_Model_delete Model_delete snd table rows].
    destruct (decide (pk = self.1)) as [->|Hne].
    + right. left. apply lookup_delete_eq.
    + left. by rewrite lookup_delete_ne.
  - cbn [IsDeletedQuerySet_delete super_QuerySet_delete snd table].
    change (rows (QuerySet_delete qs (table s)).2 !! pk = rows (table s) !! pk
            ∨ rows (QuerySet_delete qs (table s)).2 !! pk = None
            ∨ ∃ r, rows (table s) !! pk = Some r
                   ∧ rows (QuerySet_delete qs (table s)).2 !! pk
                     = Some (soft_deleted now r)).
    rewrite QuerySet_delete_lookup.
    destruct (rows (table s) !! pk) as [r|]; [|by left]. simpl.
    destruct (qs (pk, r)); [right; by left | by left].
  - cbn [IsDeletedQuerySet_delete zoom with_table snd table].
    change (rows (update qs (λ f, mkIsDeleted true (Some now) (own f)) (table s)).2 !! pk
            = rows (table s) !! pk
            ∨ rows (update qs (λ f, mkIsDeleted true (Some now) (own f)) (table s)).2 !! pk
              = None
            ∨ ∃ r, rows (table s) !! pk = Some r
                   ∧ rows (update qs (λ f, mkIsDeleted true (Some now) (own f))
                             (table s)).2 !! pk = Some (soft_deleted now r)).
    rewrite soft_update_lookup.
    destruct (rows (table s) !! pk) as [r|]; [|by left]. simpl.
    destruct (qs (pk, r)); [right; right; by exists r | by left].
  - right. left.
    rewrite IsDeletedManager_hard_delete_rows. apply lookup_empty.
Qed.

(** X5: the deletions keep the rule that a row marked as deleted
    carries the time of its deletion. *)
Theorem reaches_stamped s0 s :
  stamped s0 → reaches on_delete s0 s → stamped s.
Proof.
  intros H0 Hreach. induction Hreach as [|s now op _ IH]; [done|].
  intros pk r' Hr' Hdel.
  destruct (perform_row now op s pk) as [Hsame | [Hgone | (r & Hr & Hnew)]].
  - rewrite Hsame in Hr'. by apply (IH pk).
  - congruence.
  - rewrite Hnew in Hr'. by injection Hr' as <-.
Qed.


End IsDeletedModel_invariants.

(** ** The views: missing keys, round trips, what is read back *)

(** X7: [CartView.post] with a slug no product has answers 404 and
    writes nothing, whatever the quantity. *)
Theorem toggle_unknown_slug env user slug q s :
  evaluate (by_slug slug) (shop_product s) = ∅ →
  CartView_post env user (Some (mkToggleCartItem slug q)) s
  = (Return (mkResponse (Message "No Product with that slug") 404), s).
Proof.
  intros Hnone. destruct s as [tp ti to ts tr]. cbn [shop_product] in Hnone.
  unfold CartView_post. view_step. by rewrite get_or_none_empty.
Qed.

(** X8: [CheckoutView.post] on a non-empty cart with the id of no
    stored shipping address answers 404 and writes nothing: no order
    is created and the cart stays. *)
Theorem checkout_unknown_shipping env user shipping_id s :
  evaluate (cart user) (profiles_orderitem s) ≠ ∅ →
  rows (profiles_shippingaddress s) !! shipping_id = None →
  CheckoutView_post env user (Some (mkCheckout (Some shipping_id))) s
  = (Return (mkResponse (Message "No shipping address with that ID") 404), s).
Proof.
  intros Hcart Hnone. destruct s as [tp ti to ts tr]. simpl in *.
  unfold CheckoutView_post. view_step. rewrite exists_nonempty by done. view_step.
  by rewrite get_or_none_empty by by apply evaluate_by_id_None.
Qed.

(** X9: [ReviewViewsPost.post] for the id of no stored product
    answers 404 and writes nothing. *)
Theorem review_unknown_product env user product_id rating text s :
  rows (shop_product s) !! product_id = None →
  ReviewViewsPost_post env user (Some (mkReviewRequest product_id rating text)) s
  = (Return (mkResponse (Error "Product not found") 404), s).
Proof.
  intros Hnone. destruct s as [tp ti to ts tr]. simpl in *.
  unfold ReviewViewsPost_post. view_step.
  by rewrite get_empty by by apply evaluate_by_id_None.
Qed.

Lemma get_multiple {F} (qs : @QuerySet F) (t : Table F) :
  (2 ≤ size (evaluate qs t))%nat → get qs t = (Raise MultipleObjectsReturned, t).
Proof.
  intros Hsz. unfold get. rewrite <- length_map_to_list in Hsz.
  destruct (map_to_list (evaluate qs t)) as [|x [|y l]]; simpl in Hsz; [lia..|done].
Qed.

(** X10: when the cart holds two or more rows for one (user, product)
    pair, [CartView.post] for that pair raises
    [MultipleObjectsReturned] and writes nothing, for every quantity:
    the view cannot repair a cart whose invariant is broken. *)
Theorem toggle_duplicate_rows env user slug q product_id p s :
  evaluate (by_slug slug) (shop_product s) = {[product_id := p]} →
  (2 ≤ size (evaluate (cart_row user product_id) (profiles_orderitem s)))%nat →
  CartView_post env user (Some (mkToggleCartItem slug q)) s
  = (Raise MultipleObjectsReturned, s).
Proof.
  intros Hp Hdup. destruct s as [tp ti to ts tr]. simpl in *.
  unfold CartView_post. view_step.
  rewrite (get_or_none_singleton _ _ product_id p) by done. view_step.
  unfold update_or_create. by rewrite get_multiple.
Qed.

(** [CartView.post] with a positive quantity, in both of its paths:
    the table of order items it leaves and the one cart row of the
    pair in it. *)
Lemma CartView_post_positive env user slug q product_id p s :
  0 < q →
  evaluate (by_slug slug) (shop_product s) = {[product_id := p]} →
  (size (evaluate (cart_row user product_id) (profiles_orderitem s)) ≤ 1)%nat →
  rows (profiles_orderitem s) !! uuid4 env = None →
  ∃ message status_code k r j,
    CartView_post env user (Some (mkToggleCartItem slug q)) s
    = (Return (mkResponse (MessageItem message (Some (OrderItemData (k, r)))) status_code),
       set_profiles_orderitem (mkTable (<[k := r]> (rows (profiles_orderitem s))) j) s)
    ∧ evaluate (cart_row user product_id)
        (mkTable (<[k := r]> (rows (profiles_orderitem s))) j) = {[k := r]}
    ∧ OrderItem.quantity (fields r) = q
    ∧ (evaluate (cart_row user product_id) (profiles_orderitem s) = ∅ →
       k = uuid4 env ∧ message = "Item Added To Cart").
Proof.
  intros Hq Hp Hone Hfresh.
  assert (Hq0 : (q =? 0) = false) by (apply Z.eqb_neq; lia).
  destruct (at_most_one_row _ Hone) as [Hnone | (k & r0 & Hrow)].
  - eexists _, _, (uuid4 env), _, _.
    rewrite (CartView_post_created _ _ _ q product_id p) by done.
    cbv zeta. rewrite Hq0. split; [reflexivity|].
    split; [|done]. apply evaluate_insert; [|by left]. by apply cart_row_true.
  - eexists _, _, k, _, _.
    rewrite (CartView_post_updated _ _ _ q product_id p _ k r0) by done.
    cbv zeta. rewrite Hq0. split; [reflexivity|].
    split; [|split; [done|]].
    + apply evaluate_insert; [|eauto].
      apply evaluate_singleton_lookup in Hrow as [_ Hsel].
      apply cart_row_true. apply cart_row_true in Hsel. by destruct r0.
    + intros Hnone. rewrite Hnone in Hrow.
      by apply (f_equal (.!! k)) in Hrow; rewrite lookup_empty, lookup_singleton_eq in Hrow.
Qed.

Lemma cart_row_cart user product_id (x : N * BaseModel OrderItem.t) :
  cart_row user product_id x = true
  ↔ cart user x = true ∧ OrderItem.product (fields x.2) = product_id.
Proof. rewrite cart_row_true, cart_true. tauto. Qed.

(** X11: after [CartView.post] with a positive quantity, [CartView.get]
    of the same user lists the row the post answered with, holding
    that quantity, and no other row of the product. *)
Theorem cart_get_lists_toggled_item env user slug q product_id p s :
  0 < q →
  evaluate (by_slug slug) (shop_product s) = {[product_id := p]} →
  (size (evaluate (cart_row user product_id) (profiles_orderitem s)) ≤ 1)%nat →
  rows (profiles_orderitem s) !! uuid4 env = None →
  ∃ resp s1 k r items,
    CartView_post env user (Some (mkToggleCartItem slug q)) s = (Return resp, s1)
    ∧ item_payload resp = Some (OrderItemData (k, r))
    ∧ CartView_get user s1 = (Return (mkReadResponse (OrderItems items) 200), s1)
    ∧ (k, r) ∈ items
    ∧ OrderItem.quantity (fields r) = q
    ∧ OrderItem.product (fields r) = product_id
    ∧ (∀ x, x ∈ items → OrderItem.product (fields x.2) = product_id → x = (k, r)).
Proof.
  intros Hq Hp Hone Hfresh.
  destruct (CartView_post_positive env user slug q product_id p s Hq Hp Hone Hfresh)
    as (message & status_code & k & r & j & Hrun & Hrow & Hqty & _).
  eexists _, _, k, r, _. split; [exact Hrun|]. split; [done|].
  destruct s as [tp ti to ts tr]. split; [reflexivity|].
  cbn [profiles_orderitem] in *.
  pose proof (evaluate_singleton_lookup _ _ _ _ Hrow) as [Hk Hsel].
  apply cart_row_cart in Hsel as [Hcart Hprod].
  split; [|split; [done|split; [done|]]].
  - apply elem_of_map_to_list, evaluate_lookup. by split.
  - intros [k' r'] [Hk' Hcart']%elem_of_map_to_list%evaluate_lookup Hprod'.
    assert (Hin : evaluate (cart_row user product_id)
                    (mkTable (<[k := r]> (rows ti)) j) !! k' = Some r').
    { apply evaluate_lookup. split; [done|]. by apply cart_row_cart. }
    rewrite Hrow in Hin. apply lookup_singleton_Some in Hin as [-> ->]. done.
Qed.

(** X12: putting a product in an empty cart slot and then setting its
    quantity to 0 leaves the rows of all tables as they were before
    the two calls; the answers are "Added" and "Removed". *)
Theorem toggle_then_zero_restores env1 env2 user slug q product_id p s :
  0 < q →
  evaluate (by_slug slug) (shop_product s) = {[product_id := p]} →
  evaluate (cart_row user product_id) (profiles_orderitem s) = ∅ →
  rows (profiles_orderitem s) !! uuid4 env1 = None →
  ∃ resp1 s1 resp2 s2,
    CartView_post env1 user (Some (mkToggleCartItem slug q)) s = (Return resp1, s1)
    ∧ CartView_post env2 user (Some (mkToggleCartItem slug 0)) s1 = (Return resp2, s2)
    ∧ toggle_kind resp1 = Some Added
    ∧ toggle_kind resp2 = Some Removed
    ∧ persisted s2 = persisted s.
Proof.
  intros Hq Hp Hnone Hfresh.
  assert (Hq0 : (q =? 0) = false) by (apply Z.eqb_neq; lia).
  pose (r := mkBaseModel (now env1) (now env1) (OrderItem.mk user None product_id q)).
  pose (t1 := mkTable (<[uuid4 env1 := r]> (rows (profiles_orderitem s)))
                      (journal (profiles_orderitem s) ++ [INSERT (uuid4 env1)])).
  assert (Hrow1 : evaluate (cart_row user product_id) t1 = {[uuid4 env1 := r]}).
  { apply evaluate_insert; [|by left]. by apply cart_row_true. }
  eexists _, _, _, _.
  rewrite (CartView_post_created _ _ _ q product_id p) by done.
  cbv zeta. rewrite Hq0. split; [reflexivity|]. fold r t1.
  rewrite (CartView_post_updated _ _ _ 0 product_id p _ (uuid4 env1) r) by done.
  split; [reflexivity|]. do 2 (split; [done|]).
  unfold persisted. cbn [Z.eqb snd shop_product profiles_orderitem profiles_order
    profiles_shippingaddress shop_review set_profiles_orderitem rows t1].
  by rewrite delete_insert_eq, delete_insert_id.
Qed.

Lemma evaluate_lookup_eq {F} (qs : @QuerySet F) (t : Table F) pk :
  evaluate qs t !! pk = r ← rows t !! pk; if qs (pk, r) then Some r else None.
Proof.
  unfold evaluate. rewrite map_lookup_filter.
  destruct (rows t !! pk) as [r|]; [|done]. simpl.
  destruct (qs (pk, r)) eqn:Hq.
  - rewrite option_guard_True; [done|]. simpl. tauto.
  - rewrite option_guard_False; [done|]. simpl. tauto.
Qed.

Lemma update_cart_empty (t : Table OrderItem.t) user order_id :
  evaluate (cart user) (update (cart user) (OrderItem.set_order (Some order_id)) t).2 = ∅.
Proof.
  apply map_eq. intros pk. rewrite lookup_empty. apply eq_None_not_Some.
  intros [r' [Hr' Hq']%evaluate_lookup]. rewrite update_lookup in Hr'.
  destruct (rows t !! pk) as [r|] eqn:Hr; [|done].
  simpl in Hr'. injection Hr' as <-.
  destruct (cart user (pk, r)) eqn:Hq; [|congruence].
  apply cart_true in Hq'. simpl in Hq'. by destruct Hq'.
Qed.

Lemma CheckoutView_post_no_items env user request_data s :
  evaluate (cart user) (profiles_orderitem s) = ∅ →
  CheckoutView_post env user request_data s
  = (Return (mkResponse (Message "No Items in Cart") 404), s).
Proof.
  intros Hempty. destruct s as [tp ti to ts tr]. simpl in *.
  unfold CheckoutView_post. view_step. by rewrite exists_empty.
Qed.

(** X13: a successful checkout takes the cart: afterwards
    [CartView.get] of the user lists nothing, and another checkout,
    whatever its body, answers "No Items in Cart" and writes
    nothing. *)
Theorem checkout_consumes_cart env env' user shipping_id sh request_data s :
  evaluate (cart user) (profiles_orderitem s) ≠ ∅ →
  rows (profiles_shippingaddress s) !! shipping_id = Some sh →
  rows (profiles_order s) !! uuid4 env = None →
  ∃ resp s',
    CheckoutView_post env user (Some (mkCheckout (Some shipping_id))) s = (Return resp, s')
    ∧ status resp = 200
    ∧ CartView_get user s' = (Return (mkReadResponse (OrderItems []) 200), s')
    ∧ CheckoutView_post env' user request_data s'
      = (Return (mkResponse (Message "No Items in Cart") 404), s').
Proof.
  intros Hcart Hsh Hfresh. eexists _, _.
  split; [by apply (CheckoutView_post_success _ _ _ sh)|]. cbv zeta.
  split; [done|].
  assert (Hempty : evaluate (cart user)
            (profiles_orderitem
               (set_profiles_orderitem
                  (update (cart user) (OrderItem.set_order (Some (uuid4 env)))
                          (profiles_orderitem s)).2
                  (set_profiles_order
                     (mkTable (<[uuid4 env := mkBaseModel (now env) (now env)
                                   (Order_kwargs user (snapshot sh))]>
                                 (rows (profiles_order s)))
                              (journal (profiles_order s) ++ [INSERT (uuid4 env)])) s)))
            = ∅) by apply update_cart_empty.
  split; [|by apply CheckoutView_post_no_items].
  unfold CartView_get, OrderItem_objects, zoom, bind, iterate.
  rewrite Hempty, map_to_list_empty. by destruct s.
Qed.

(** X14: after a successful checkout the rows that reference the new
    order are the rows of the former cart, each with its order set,
    and no other, provided no row referenced the id of the order
    before. *)
Theorem checkout_order_items env user shipping_id sh s :
  evaluate (cart user) (profiles_orderitem s) ≠ ∅ →
  rows (profiles_shippingaddress s) !! shipping_id = Some sh →
  rows (profiles_order s) !! uuid4 env = None →
  evaluate (of_order (uuid4 env)) (profiles_orderitem s) = ∅ →
  ∃ resp s',
    CheckoutView_post env user (Some (mkCheckout (Some shipping_id))) s = (Return resp, s')
    ∧ evaluate (of_order (uuid4 env)) (profiles_orderitem s')
      = set_fields (OrderItem.set_order (Some (uuid4 env)))
        <$> evaluate (cart user) (profiles_orderitem s)
    ∧ size (evaluate (of_order (uuid4 env)) (profiles_orderitem s'))
      = size (evaluate (cart user) (profiles_orderitem s)).
Proof.
  intros Hcart Hsh Hfresh Hunused. eexists _, _.
  split; [by apply (CheckoutView_post_success _ _ _ sh)|]. cbv zeta.
  cbn [profiles_orderitem set_profiles_orderitem].
  assert (Heq : evaluate (of_order (uuid4 env))
                  (update (cart user) (OrderItem.set_order (Some (uuid4 env)))
                          (profiles_orderitem s)).2
                = set_fields (OrderItem.set_order (Some (uuid4 env)))
                  <$> evaluate (cart user) (profiles_orderitem s)).
  { apply map_eq. intros pk.
    rewrite lookup_fmap, !evaluate_lookup_eq, update_lookup.
    destruct (rows (profiles_orderitem s) !! pk) as [r|] eqn:Hr; [|done]. simpl.
    destruct (cart user (pk, r)) eqn:Hq; simpl.
    - assert (Hnew : of_order (uuid4 env)
                       (pk, set_fields (OrderItem.set_order (Some (uuid4 env))) r) = true)
        by (unfold of_order, filter_, all; by apply bool_decide_eq_true).
      by rewrite Hnew.
    - destruct (of_order (uuid4 env) (pk, r)) eqn:Hold; [|done].
      assert (Hin : evaluate (of_order (uuid4 env)) (profiles_orderitem s) !! pk = Some r)
        by by apply evaluate_lookup.
      by rewrite Hunused, lookup_empty in Hin. }
  split; [exact Heq|]. by rewrite Heq, map_size_fmap.
Qed.

(** X15: a review submitted for a product the user had not reviewed
    and then deleted by the same user, under the id the first answer
    gave, leaves the rows of all tables as they were. *)
Theorem review_post_then_delete_restores env user product_id p rating text s :
  rows (shop_product s) !! product_id = Some p →
  evaluate (review_of user product_id) (shop_review s) = ∅ →
  rows (shop_review s) !! uuid4 env = None →
  ∃ r s1 resp2 s2,
    ReviewViewsPost_post env user (Some (mkReviewRequest product_id rating text)) s
    = (Return (mkResponse (Serialized (ReviewData (uuid4 env, r))) 201), s1)
    ∧ ReviewViewsDelete_delete user (uuid4 env) s1 = (Return resp2, s2)
    ∧ status resp2 = 200
    ∧ persisted s2 = persisted s.
Proof.
  intros Hp Hnone Hfresh. eexists _, _, _, _.
  rewrite (ReviewViewsPost_post_created _ _ _ p) by done. cbv zeta.
  split; [reflexivity|]. split; [reflexivity|]. split; [done|].
  unfold persisted. cbn [shop_product profiles_orderitem profiles_order
    profiles_shippingaddress shop_review set_shop_review snd fst].
  f_equal. apply map_eq. intros pk.
  change (rows (QuerySet_delete (review_by (uuid4 env) user)
                  (mkTable (<[uuid4 env := mkBaseModel (now env) (now env)
                                (Review.mk user product_id rating text)]>
                              (rows (shop_review s)))
                           (journal (shop_review s) ++ [INSERT (uuid4 env)]))).2 !! pk
          = rows (shop_review s) !! pk).
  rewrite QuerySet_delete_lookup. cbn [rows].
  destruct (decide (pk = uuid4 env)) as [->|Hne].
  - rewrite lookup_insert_eq, Hfresh. simpl.
    assert (Hsel : review_by (uuid4 env) user
                     (uuid4 env, mkBaseModel (now env) (now env)
                                   (Review.mk user product_id rating text)) = true)
      by by apply review_by_true.
    by rewrite Hsel.
  - rewrite lookup_insert_ne by done.
    destruct (rows (shop_review s) !! pk) as [r1|]; [|done]. simpl.
    destruct (review_by (uuid4 env) user (pk, r1)) eqn:Hsel; [|done].
    apply review_by_true in Hsel as [? _]. done.
Qed.

Lemma reviews_of_product_true product_id (x : N * BaseModel Review.t) :
  reviews_of_product product_id x = true ↔ Review.product (fields x.2) = product_id.
Proof. unfold reviews_of_product, filter_, all. simpl. apply bool_decide_eq_true. Qed.


(** X17: after the first review of a product is created,
    [ReviewViewsGet.get] lists that review alone and its rating is the
    average. *)
Theorem reviews_get_after_first_review env user product_id p rating text s :
  rows (shop_product s) !! product_id = Some p →
  evaluate (reviews_of_product product_id) (shop_review s) = ∅ →
  rows (shop_review s) !! uuid4 env = None →
  ∃ r s1,
    ReviewViewsPost_post env user (Some (mkReviewRequest product_id rating text)) s
    = (Return (mkResponse (Serialized (ReviewData (uuid4 env, r))) 201), s1)
    ∧ ReviewViewsGet_get product_id s1
      = (Return (mkReadResponse (Reviews [(uuid4 env, r)]
                                   (Some (QArith_base.Qmake rating 1))) 200), s1).
Proof.
  intros Hp Hnone Hfresh.
  assert (Hmine : evaluate (review_of user product_id) (shop_review s) = ∅).
  { apply map_eq. intros pk. rewrite lookup_empty. apply eq_None_not_Some.
    intros [r [Hr [_ Hq]%review_of_true]%evaluate_lookup].
    assert (Hin : evaluate (reviews_of_product product_id) (shop_review s) !! pk = Some r).
    { apply evaluate_lookup. split; [done|]. by apply reviews_of_product_true. }
    by rewrite Hnone, lookup_empty in Hin. }
  eexists _, _.
  rewrite (ReviewViewsPost_post_created _ _ _ p) by done. cbv zeta.
  split; [reflexivity|].
  assert (Hrow : evaluate (reviews_of_product product_id)
            (mkTable (<[uuid4 env := mkBaseModel (now env) (now env)
                          (Review.mk user product_id rating text)]> (rows (shop_review s)))
                     (journal (shop_review s) ++ [INSERT (uuid4 env)]))
          = {[uuid4 env := mkBaseModel (now env) (now env)
                             (Review.mk user product_id rating text)]}).
  { apply evaluate_insert; [|by left]. by apply reviews_of_product_true. }
  unfold ReviewViewsGet_get, ReviewViewsGet_get_reviews_avg, ReviewViewsGet_get_object,
    Review_objects, zoom, bind, aggregate_Avg, iterate.
  cbn [shop_review set_shop_review fst snd]. rewrite Hrow, map_to_list_singleton.
  cbn [fmap list_fmap fst snd fields Review.rating foldr length Pos.of_nat ret].
  rewrite Z.add_0_r. by destruct s.
Qed.

(** ** What the views never write *)

Lemma cart_slot_None user : cart_slot user None.
Proof. intros r. discriminate. Qed.

Lemma cart_slot_Some user product_id k r :
  cart_row user product_id (k, r) = true → cart_slot user (Some r).
Proof. intros (? & ? & ?)%cart_row_true r' [= <-]. done. Qed.

(** The table [CartView.post] leaves, slot by slot, in every outcome. *)
Lemma CartView_post_rows env user request_data s :
  ∃ t',
    (CartView_post env user request_data s).2 = set_profiles_orderitem t' s
    ∧ ∀ k, rows t' !! k = rows (profiles_orderitem s) !! k
           ∨ (cart_slot user (rows (profiles_orderitem s) !! k)
              ∧ cart_slot user (rows t' !! k)).
Proof.
  destruct s as [tp ti to ts tr]. cbn [profiles_orderitem].
  assert (Hsame : ∃ t',
    mkDB tp ti to ts tr = set_profiles_orderitem t' (mkDB tp ti to ts tr)
    ∧ ∀ k, rows t' !! k = rows ti !! k
           ∨ (cart_slot user (rows ti !! k) ∧ cart_slot user (rows t' !! k))).
  { exists ti. split; [done|]. by left. }
  destruct request_data as [[slug q]|]; [|exact Hsame].
  unfold CartView_post. view_step.
  destruct (get_or_none_cases (by_slug slug) tp) as [(e & ->) | [-> | (pid & p & _ & ->)]];
    [exact Hsame..|].
  view_step.
  destruct (update_or_create_cases (cart_row user pid) (OrderItem.mk user None pid q)
              (OrderItem.set_quantity q) (uuid4 env) (now env) ti)
    as [(e & ->) | [(Hnone & Hfresh & ->) | (k0 & r0 & Hrow & ->)]]; [exact Hsame| |].
  - cbn [fst snd fields OrderItem.quantity].
    assert (Hnew : cart_slot user
              (Some (mkBaseModel (now env) (now env) (OrderItem.mk user None pid q))))
      by (apply (cart_slot_Some _ pid (uuid4 env)); by apply cart_row_true).
    destruct (q =? 0); eexists; (split; [reflexivity|]); cbn [rows fst snd profiles_orderitem set_profiles_orderitem]; intros k;
      (destruct (decide (k = uuid4 env)) as [->|Hne];
       [right; rewrite Hfresh; split; [apply cart_slot_None|]
       |left]).
    + rewrite lookup_delete_eq. apply cart_slot_None.
    + by rewrite lookup_delete_ne, lookup_insert_ne by done.
    + by rewrite lookup_insert_eq.
    + by rewrite lookup_insert_ne by done.
  - cbn [fst snd fields OrderItem.quantity set_updated_at set_fields OrderItem.set_quantity].
    apply evaluate_singleton_lookup in Hrow as [Hk0 Hsel].
    assert (Hold : cart_slot user (Some r0)) by by apply (cart_slot_Some _ pid k0).
    assert (Hnew : cart_slot user
              (Some (mkBaseModel (created_at r0) (now env)
                       (OrderItem.set_quantity q (fields r0))))).
    { apply (cart_slot_Some _ pid k0). apply cart_row_true. apply cart_row_true in Hsel.
      by destruct r0. }
    destruct (q =? 0); eexists; (split; [reflexivity|]); cbn [rows fst snd profiles_orderitem set_profiles_orderitem]; intros k;
      (destruct (decide (k = k0)) as [->|Hne];
       [right; rewrite Hk0; split; [exact Hold|]
       |left]).
    + rewrite lookup_delete_eq. apply cart_slot_None.
    + by rewrite lookup_delete_ne, lookup_insert_ne by done.
    + by rewrite lookup_insert_eq.
    + by rewrite lookup_insert_ne by done.
Qed.

(** X18: whatever the request and whether it ends with a response or
    an exception, [CartView.post] writes the table of order items
    only, and in it a row that has an order or belongs to another
    user is never changed, removed or created. *)
Theorem CartView_post_writes_own_cart_only env user request_data s :
  ∃ result s',
    CartView_post env user request_data s = (result, s')
    ∧ shop_product s' = shop_product s
    ∧ profiles_order s' = profiles_order s
    ∧ profiles_shippingaddress s' = profiles_shippingaddress s
    ∧ shop_review s' = shop_review s
    ∧ ∀ k r, OrderItem.order (fields r) ≠ None ∨ OrderItem.user (fields r) ≠ user →
             rows (profiles_orderitem s') !! k = Some r
             ↔ rows (profiles_orderitem s) !! k = Some r.
Proof.
  destruct (CartView_post_rows env user request_data s) as (t' & Hs' & Hrows).
  destruct (CartView_post env user request_data s) as [result s'].
  exists result, s'. split; [done|]. cbn [snd] in Hs'. subst s'.
  destruct s as [tp ti to ts tr]. cbn in *. do 4 (split; [done|]).
  intros k r Hother. destruct (Hrows k) as [-> | [Hbefore Hafter]]; [done|].
  split; intros Hk.
  - destruct (Hafter r Hk). tauto.
  - destruct (Hbefore r Hk). tauto.
Qed.

(** The two tables [CheckoutView.post] leaves, in every outcome. *)
Lemma CheckoutView_post_rows env user request_data s :
  ∃ to' ti',
    (CheckoutView_post env user request_data s).2
    = set_profiles_orderitem ti' (set_profiles_order to' s)
    ∧ (∀ k o, rows (profiles_order s) !! k = Some o → rows to' !! k = Some o)
    ∧ (∀ k, k ≠ uuid4 env → rows to' !! k = rows (profiles_order s) !! k)
    ∧ (∀ k, rows ti' !! k = rows (profiles_orderitem s) !! k
            ∨ ∃ r, rows (profiles_orderitem s) !! k = Some r
                   ∧ cart_slot user (Some r)
                   ∧ rows ti' !! k
                     = Some (set_fields (OrderItem.set_order (Some (uuid4 env))) r)
                   ∧ is_Some (rows to' !! uuid4 env)).
Proof.
  destruct s as [tp ti to ts tr]. cbn [profiles_orderitem profiles_order].
  assert (Hsame : ∃ to' ti',
    mkDB tp ti to ts tr
    = set_profiles_orderitem ti' (set_profiles_order to' (mkDB tp ti to ts tr))
    ∧ (∀ k o, rows to !! k = Some o → rows to' !! k = Some o)
    ∧ (∀ k, k ≠ uuid4 env → rows to' !! k = rows to !! k)
    ∧ (∀ k, rows ti' !! k = rows ti !! k
            ∨ ∃ r, rows ti !! k = Some r ∧ cart_slot user (Some r)
                   ∧ rows ti' !! k
                     = Some (set_fields (OrderItem.set_order (Some (uuid4 env))) r)
                   ∧ is_Some (rows to' !! uuid4 env))).
  { exists to, ti. split; [done|]. split; [done|]. split; [done|]. by left. }
  unfold CheckoutView_post, exists_. view_step.
  destruct (bool_decide (evaluate (cart user) ti ≠ ∅)); [|exact Hsame].
  view_step. destruct request_data as [[[sid|]]|]; [|exact Hsame..].
  view_step.
  destruct (get_or_none_cases (by_id sid) ts) as [(e & ->) | [-> | (k0 & sh & _ & ->)]];
    [exact Hsame..|].
  destruct (rows to !! uuid4 env) as [o|] eqn:Hfresh.
  - unfold CheckoutView_post_order, Order_objects, zoom, bind, create.
    cbn -[update]. rewrite Hfresh. exact Hsame.
  - rewrite CheckoutView_post_order_bound by done. cbv zeta.
    cbn [snd shop_product profiles_orderitem profiles_order profiles_shippingaddress
         shop_review].
    exists (mkTable (<[uuid4 env := mkBaseModel (now env) (now env)
                                      (Order_kwargs user (snapshot sh))]> (rows to))
                    (journal to ++ [INSERT (uuid4 env)])),
           (update (cart user) (OrderItem.set_order (Some (uuid4 env))) ti).2.
    split; [reflexivity|]. cbn [rows]. split; [|split].
    + intros k o Hk. rewrite lookup_insert_ne; [done|]. congruence.
    + intros k Hne. by rewrite lookup_insert_ne.
    + intros k. rewrite update_lookup.
      destruct (rows ti !! k) as [r|] eqn:Hr; [|by left]. simpl.
      destruct (cart user (k, r)) eqn:Hq; [|by left].
      right. exists r. split; [done|]. split.
      * intros r' [= <-]. apply cart_true in Hq. simpl in Hq. tauto.
      * split; [done|]. by rewrite lookup_insert_eq.
Qed.

(** X19: whatever the request and its outcome, [CheckoutView.post]
    leaves products, shipping addresses and reviews alone; it keeps
    every stored order as it is and adds at most the one order under
    the UUID it drew; it adds and removes no order item, leaves those
    that have an order or belong to another user as they are, and
    changes one only by making it reference that order, which is
    stored. *)
Theorem CheckoutView_post_writes_order_and_cart_only env user request_data s :
  ∃ result s',
    CheckoutView_post env user request_data s = (result, s')
    ∧ shop_product s' = shop_product s
    ∧ profiles_shippingaddress s' = profiles_shippingaddress s
    ∧ shop_review s' = shop_review s
    ∧ (∀ k o, rows (profiles_order s) !! k = Some o →
              rows (profiles_order s') !! k = Some o)
    ∧ (∀ k, k ≠ uuid4 env →
            rows (profiles_order s') !! k = rows (profiles_order s) !! k)
    ∧ (∀ k, rows (profiles_orderitem s') !! k = None
            ↔ rows (profiles_orderitem s) !! k = None)
    ∧ (∀ k r, OrderItem.order (fields r) ≠ None ∨ OrderItem.user (fields r) ≠ user →
              rows (profiles_orderitem s) !! k = Some r →
              rows (profiles_orderitem s') !! k = Some r)
    ∧ (∀ k r r', rows (profiles_orderitem s) !! k = Some r →
                 rows (profiles_orderitem s') !! k = Some r' →
                 r' = r
                 ∨ (r' = set_fields (OrderItem.set_order (Some (uuid4 env))) r
                    ∧ is_Some (rows (profiles_order s') !! uuid4 env))).
Proof.
  destruct (CheckoutView_post_rows env user request_data s)
    as (to' & ti' & Hs' & Hkept & Hnew & Hrows).
  destruct (CheckoutView_post env user request_data s) as [result s'].
  exists result, s'. split; [done|]. cbn [snd] in Hs'. subst s'.
  destruct s as [tp ti to ts tr]. cbn in *. do 3 (split; [done|]).
  split; [exact Hkept|]. split; [exact Hnew|]. split; [|split].
  - intros k. destruct (Hrows k) as [-> | (r & -> & _ & -> & _)]; [done|].
    split; discriminate.
  - intros k r Hother Hk. destruct (Hrows k) as [-> | (r0 & Hr0 & Hslot & _)]; [done|].
    rewrite Hk in Hr0. injection Hr0 as <-. destruct (Hslot r eq_refl). tauto.
  - intros k r r' Hk Hk'. destruct (Hrows k) as [Hsame | (r0 & Hr0 & _ & Hr' & Hin)].
    + left. congruence.
    + right. split; [congruence|done].
Qed.

(** The table [ReviewViewsPost.post] leaves, slot by slot, in every
    outcome. *)
Lemma ReviewViewsPost_post_rows env user request_data s :
  ∃ tr',
    (ReviewViewsPost_post env user request_data s).2 = set_shop_review tr' s
    ∧ ∀ k, rows tr' !! k = rows (shop_review s) !! k
           ∨ (review_slot user (rows (shop_review s) !! k)
              ∧ review_slot user (rows tr' !! k)).
Proof.
  destruct s as [tp ti to ts tr]. cbn [shop_review].
  assert (Hsame : ∃ tr',
    mkDB tp ti to ts tr = set_shop_review tr' (mkDB tp ti to ts tr)
    ∧ ∀ k, rows tr' !! k = rows tr !! k
           ∨ (review_slot user (rows tr !! k) ∧ review_slot user (rows tr' !! k))).
  { exists tr. split; [done|]. by left. }
  destruct request_data as [[pid rating text]|]; [|exact Hsame].
  unfold ReviewViewsPost_post. view_step.
  destruct (get_cases (by_id pid) tp) as [(e & -> & _) | (k0 & p & _ & ->)].
  { by destruct (bool_decide _). }
  view_step.
  destruct (update_or_create_cases (review_of user k0) (Review.mk user k0 rating text)
              (Review.set_defaults rating text) (uuid4 env) (now env) tr)
    as [(e & ->) | [(Hnone & Hfresh & ->) | (k1 & r0 & Hrow & ->)]]; [exact Hsame| |].
  - eexists. split; [reflexivity|]. cbn [rows fst snd shop_review set_shop_review].
    intros k. destruct (decide (k = uuid4 env)) as [->|Hne]; [right|left].
    + rewrite Hfresh, lookup_insert_eq. split; [intros r; discriminate|].
      by intros r [= <-].
    + by rewrite lookup_insert_ne by done.
  - apply evaluate_singleton_lookup in Hrow as [Hk1 [Hu _]%review_of_true].
    eexists. split; [reflexivity|]. cbn [rows fst snd shop_review set_shop_review].
    intros k. destruct (decide (k = k1)) as [->|Hne]; [right|left].
    + rewrite Hk1, lookup_insert_eq. split; [by intros r [= <-]|].
      intros r [= <-]. by destruct r0.
    + by rewrite lookup_insert_ne by done.
Qed.

(** X20: whatever the request and its outcome, [ReviewViewsPost.post]
    writes the table of reviews only, and in it the review of another
    user is never changed, removed or created. *)
Theorem ReviewViewsPost_post_writes_own_review_only env user request_data s :
  ∃ result s',
    ReviewViewsPost_post env user request_data s = (result, s')
    ∧ shop_product s' = shop_product s
    ∧ profiles_orderitem s' = profiles_orderitem s
    ∧ profiles_order s' = profiles_order s
    ∧ profiles_shippingaddress s' = profiles_shippingaddress s
    ∧ ∀ k r, Review.user (fields r) ≠ user →
             rows (shop_review s') !! k = Some r ↔ rows (shop_review s) !! k = Some r.
Proof.
  destruct (ReviewViewsPost_post_rows env user request_data s) as (tr' & Hs' & Hrows).
  destruct (ReviewViewsPost_post env user request_data s) as [result s'].
  exists result, s'. split; [done|]. cbn [snd] in Hs'. subst s'.
  destruct s as [tp ti to ts tr]. cbn in *. do 4 (split; [done|]).
  intros k r Hother. destruct (Hrows k) as [-> | [Hbefore Hafter]]; [done|].
  split; intros Hk.
  - by destruct (Hother (Hafter r Hk)).
  - by destruct (Hother (Hbefore r Hk)).
Qed.

(** ** What stays true along any sequence of calls *)

(** What one call of a view does outside the table of reviews. *)
Lemma run_effect env c s :
  shop_product (run env c s).2 = shop_product s
  ∧ profiles_shippingaddress (run env c s).2 = profiles_shippingaddress s
  ∧ (∀ k o, rows (profiles_order s) !! k = Some o →
            rows (profiles_order (run env c s).2) !! k = Some o)
  ∧ (∀ k, rows (profiles_orderitem (run env c s).2) !! k = rows (profiles_orderitem s) !! k
          ∨ (∃ user, cart_slot user (rows (profiles_orderitem s) !! k)
                     ∧ cart_slot user (rows (profiles_orderitem (run env c s).2) !! k))
          ∨ (∃ user r order_id,
               rows (profiles_orderitem s) !! k = Some r
               ∧ cart_slot user (Some r)
               ∧ rows (profiles_orderitem (run env c s).2) !! k
                 = Some (set_fields (OrderItem.set_order (Some order_id)) r)
               ∧ is_Some (rows (profiles_order (run env c s).2) !! order_id))).
Proof.
  destruct c as [user d | user d | user d | user pk]; cbn [run].
  - destruct (CartView_post_rows env user d s) as (t' & -> & Hrows).
    destruct s as [tp ti to ts tr]. cbn. do 3 (split; [done|]).
    intros k. destruct (Hrows k) as [?|?]; [by left | right; left; by exists user].
  - destruct (CheckoutView_post_rows env user d s) as (to' & ti' & -> & Hold & _ & Hrows).
    destruct s as [tp ti to ts tr]. cbn in *. do 2 (split; [done|]). split; [exact Hold|].
    intros k. destruct (Hrows k) as [?|(r & ? & ? & ? & ?)]; [by left|].
    right. right. by exists user, r, (uuid4 env).
  - destruct (ReviewViewsPost_post_rows env user d s) as (tr' & -> & _).
    destruct s as [tp ti to ts tr]. cbn. do 3 (split; [done|]). by left.
  - destruct s as [tp ti to ts tr]. cbn. do 3 (split; [done|]). by left.
Qed.

(** X21: no sequence of calls of the four writing views changes a
    product or a shipping address, and none changes or removes an
    order once it is stored. *)
Theorem reachable_catalog_and_orders_kept s0 s :
  reachable s0 s →
  shop_product s = shop_product s0
  ∧ profiles_shippingaddress s = profiles_shippingaddress s0
  ∧ ∀ k o, rows (profiles_order s0) !! k = Some o → rows (profiles_order s) !! k = Some o.
Proof.
  induction 1 as [|s env c _ (IHp & IHs & IHo)]; [done|].
  destruct (run_effect env c s) as (Hp & Hs & Ho & _).
  split; [congruence|]. split; [congruence|]. intros k o Hk. by apply Ho, IHo.
Qed.

(** X22: an order item that has an order is final: no sequence of
    calls of the views changes or removes it. *)
Theorem reachable_ordered_items_kept s0 s k r :
  reachable s0 s →
  rows (profiles_orderitem s0) !! k = Some r →
  OrderItem.order (fields r) ≠ None →
  rows (profiles_orderitem s) !! k = Some r.
Proof.
  intros Hreach Hk Hord. induction Hreach as [|s env c _ IH]; [done|].
  destruct (run_effect env c s) as (_ & _ & _ & Hrows).
  destruct (Hrows k) as [-> | [(user & Hslot & _) | (user & r' & o & Hr' & Hslot & _)]];
    [done| |].
  - by destruct (Hslot r IH).
  - rewrite IH in Hr'. injection Hr' as <-. by destruct (Hslot r eq_refl).
Qed.

(** X23: the views keep the references of the order items valid: if
    every order item that has an order references a stored order, this
    is so after any sequence of calls. *)
Theorem reachable_order_references_valid s0 s :
  order_references_valid s0 → reachable s0 s → order_references_valid s.
Proof.
  intros H0 Hreach. induction Hreach as [|s env c _ IH]; [done|].
  destruct (run_effect env c s) as (_ & _ & Ho & Hrows).
  intros k r' o Hr' Hord.
  destruct (Hrows k) as [Hsame | [(user & _ & Hslot) | (user & r & o' & Hr & _ & Hnew & Hin)]].
  - rewrite Hsame in Hr'. destruct (IH k r' o Hr' Hord) as [x Hx].
    exists x. by apply Ho.
  - destruct (Hslot r' Hr') as [Hnone _]. congruence.
  - rewrite Hnew in Hr'. injection Hr' as <-. simpl in Hord. by injection Hord as <-.
Qed.

(** ** The routes *)

Module Urls_facts.
Import Urls.

(** Neither converter accepts a slash. *)
Lemma span_slash c : span c "/" = ("", "/").
Proof. by destruct c. Qed.

Lemma span_value c value :
  all_accepted c value = true → span c (value +:+ "/") = (value, "/").
Proof.
  intros Hall. induction value as [|a value IH]; [apply span_slash|].
  simpl in *. apply andb_prop in Hall as [-> Hall]. by rewrite IH.
Qed.

Lemma append_slash_nonempty value : String.eqb (value +:+ "/") "" = false.
Proof. by destruct value. Qed.

Lemma eqb_nonempty value : value ≠ "" → String.eqb value "" = false.
Proof. by destruct value. Qed.

(** A url made of a literal, an accepted value and a slash matches
    the route made of that literal and a parameter, and not the
    literal alone. *)
Lemma match_parameter text c name value :
  value ≠ "" → all_accepted c value = true →
  match_segments [Lit text; Param c name; Lit "/"] (text +:+ value +:+ "/")
  = Some [(name, value)]
  ∧ match_segments [Lit text] (text +:+ value +:+ "/") = None.
Proof.
  intros Hne Hall. cbn [match_segments].
  assert (Hstrip : ∀ rest, strip_prefix text (text +:+ rest) = Some rest).
  { intros rest. induction text as [|a text IH]; [done|]. simpl.
    by rewrite Ascii.eqb_refl. }
  rewrite Hstrip. cbn [mbind option_bind].
  rewrite span_value, eqb_nonempty, append_slash_nonempty by done. done.
Qed.


(** X25: for every id a [str] parameter accepts (not empty, without a
    slash), the url [reviews/<id>/] resolves to [ReviewViewsGet] with
    that id: a GET is handled by [ReviewViewsGet.get], and a DELETE is
    answered 405 by that class, never by [ReviewViewsDelete.delete]. *)
Theorem reviews_id_url_dispatch id :
  id ≠ "" → all_accepted str id = true →
  resolve ("reviews/" +:+ id +:+ "/") = Some (ReviewViewsGet, [("product_id", id)])
  ∧ dispatch GET ("reviews/" +:+ id +:+ "/")
    = handler ReviewViewsGet GET [("product_id", id)]
  ∧ dispatch DELETE ("reviews/" +:+ id +:+ "/") = http_method_not_allowed ReviewViewsGet.
Proof.
  intros Hne Hall.
  assert (Hres : resolve ("reviews/" +:+ id +:+ "/")
                 = Some (ReviewViewsGet, [("product_id", id)])).
  { destruct (match_parameter "reviews/" str "product_id" id Hne Hall)
      as [Hparam Hlit].
    unfold resolve, urlpatterns. cbn [resolve_in route view]. unfold match_route.
    change (segments "" None "reviews/") with (Some [Lit "reviews/"]).
    change (segments "" None "reviews/<str:product_id>/")
      with (Some [Lit "reviews/"; Param str "product_id"; Lit "/"]).
    cbn [mbind option_bind]. rewrite Hparam, Hlit. reflexivity. }
  split; [exact Hres|]. unfold dispatch. rewrite Hres. by split.
Qed.

(** X26: for every slug a [slug] parameter accepts, the three urls
    built on it resolve to the view of their own route with that slug,
    and not to the list route they extend. *)
Theorem slug_urls_resolve s :
  s ≠ "" → all_accepted slug s = true →
  resolve ("categories/" +:+ s +:+ "/") = Some (ProductsByCategoryView, [("slug", s)])
  ∧ resolve ("sellers/" +:+ s +:+ "/") = Some (ProductsBySellerView, [("slug", s)])
  ∧ resolve ("products/" +:+ s +:+ "/") = Some (ProductView, [("slug", s)]).
Proof.
  intros Hne Hall.
  destruct (match_parameter "categories/" slug "slug" s Hne Hall)
    as [Hc Hc0].
  destruct (match_parameter "sellers/" slug "slug" s Hne Hall)
    as [Hs _].
  destruct (match_parameter "products/" slug "slug" s Hne Hall)
    as [Hp Hp0].
  unfold resolve, urlpatterns. cbn [resolve_in route view]. unfold match_route.
  change (segments "" None "categories/") with (Some [Lit "categories/"]).
  change (segments "" None "categories/<slug:slug>/")
    with (Some [Lit "categories/"; Param slug "slug"; Lit "/"]).
  change (segments "" None "sellers/<slug:slug>/")
    with (Some [Lit "sellers/"; Param slug "slug"; Lit "/"]).
  change (segments "" None "products/") with (Some [Lit "products/"]).
  change (segments "" None "products/<slug:slug>/")
    with (Some [Lit "products/"; Param slug "slug"; Lit "/"]).
  cbn [mbind option_bind]. rewrite Hc, Hc0, Hs, Hp, Hp0. by repeat split.
Qed.

(** The two theorems with hypotheses, on examples. *)

(** X25 on the example: the url [reviews/42/]. *)
Lemma reviews_id_url_dispatch_witness :
  ("42" ≠ ""
   ∧ all_accepted str "42" = true)
  ∧ (resolve ("reviews/" +:+ "42" +:+ "/") = Some (ReviewViewsGet, [("product_id", "42")])
    ∧ dispatch GET ("reviews/" +:+ "42" +:+ "/")
      = handler ReviewViewsGet GET [("product_id", "42")]
    ∧ dispatch DELETE ("reviews/" +:+ "42" +:+ "/") = http_method_not_allowed ReviewViewsGet).
Proof.
  assert (H1 : "42" ≠ "")
    by (done).
  assert (H2 : all_accepted str "42" = true)
    by (reflexivity).
  split; [done|].
  exact (reviews_id_url_dispatch "42" H1 H2).
Defined.

(** X26 on the example: the slug [green-tea]. *)
Lemma slug_urls_resolve_witness :
  ("green-tea" ≠ ""
   ∧ all_accepted slug "green-tea" = true)
  ∧ (resolve ("categories/" +:+ "green-tea" +:+ "/") = Some (ProductsByCategoryView, [("slug", "green-tea")])
    ∧ resolve ("sellers/" +:+ "green-tea" +:+ "/") = Some (ProductsBySellerView, [("slug", "green-tea")])
    ∧ resolve ("products/" +:+ "green-tea" +:+ "/") = Some (ProductView, [("slug", "green-tea")])).
Proof.
  assert (H1 : "green-tea" ≠ "")
    by (done).
  assert (H2 : all_accepted slug "green-tea" = true)
    by (reflexivity).
  split; [done|].
  exact (slug_urls_resolve "green-tea" H1 H2).
Defined.

End Urls_facts.

(** ** The further theorems on the example databases *)


(** X5 on the example: [example_store] after the deletion of entity 4. *)
Lemma reaches_stamped_witness :
  (stamped example_store
   ∧ reaches (λ _ u, u) example_store (perform (λ _ u, u) 9 (IsDeletedModel_delete_op example_instance) example_store))
  ∧ (stamped (perform (λ _ u, u) 9 (IsDeletedModel_delete_op example_instance) example_store)).
Proof.
  assert (H1 : stamped example_store)
    by (intros pk r Hr; unfold example_store in Hr; cbn [table rows] in Hr;
        apply lookup_insert_Some in Hr as [[_ <-]|[_ Hr]]; [discriminate|]; apply lookup_singleton_Some in Hr as [_ <-]; discriminate).
  assert (H2 : reaches (λ _ u, u) example_store (perform (λ _ u, u) 9 (IsDeletedModel_delete_op example_instance) example_store))
    by (apply reaches_perform, reaches_start).
  split; [done|].
  exact (reaches_stamped (λ _ u, u) example_store (perform (λ _ u, u) 9 (IsDeletedModel_delete_op example_instance) example_store) H1 H2).
Defined.


(** X7 on the example: no product of [shop_db] has the slug "coffee". *)
Lemma toggle_unknown_slug_witness :
  (evaluate (by_slug "coffee") (shop_product shop_db) = ∅)
  ∧ (CartView_post (mkEnv 1 100%N) 1%N (Some (mkToggleCartItem "coffee" 2)) shop_db
    = (Return (mkResponse (Message "No Product with that slug") 404), shop_db)).
Proof.
  assert (H1 : evaluate (by_slug "coffee") (shop_product shop_db) = ∅)
    by (by vm_compute).
  split; [done|].
  exact (toggle_unknown_slug (mkEnv 1 100%N) 1%N "coffee" 2 shop_db H1).
Defined.

(** X8 on the example: [cart_db] has no shipping address 8. *)
Lemma checkout_unknown_shipping_witness :
  (evaluate (cart 1%N) (profiles_orderitem cart_db) ≠ ∅
   ∧ rows (profiles_shippingaddress cart_db) !! 8%N = None)
  ∧ (CheckoutView_post (mkEnv 3 102%N) 1%N (Some (mkCheckout (Some 8%N))) cart_db
    = (Return (mkResponse (Message "No shipping address with that ID") 404), cart_db)).
Proof.
  assert (H1 : evaluate (cart 1%N) (profiles_orderitem cart_db) ≠ ∅)
    by (by vm_compute).
  assert (H2 : rows (profiles_shippingaddress cart_db) !! 8%N = None)
    by (by vm_compute).
  split; [done|].
  exact (checkout_unknown_shipping (mkEnv 3 102%N) 1%N 8%N cart_db H1 H2).
Defined.

(** X9 on the example: [shop_db] has no product 8. *)
Lemma review_unknown_product_witness :
  (rows (shop_product shop_db) !! 8%N = None)
  ∧ (ReviewViewsPost_post (mkEnv 1 100%N) 1%N (Some (mkReviewRequest 8%N 5 "superb")) shop_db
    = (Return (mkResponse (Error "Product not found") 404), shop_db)).
Proof.
  assert (H1 : rows (shop_product shop_db) !! 8%N = None)
    by (by vm_compute).
  split; [done|].
  exact (review_unknown_product (mkEnv 1 100%N) 1%N 8%N 5 "superb" shop_db H1).
Defined.

(** X10 on the example: user 1 has two cart rows for "tea" in
    [duplicate_cart_db]. *)
Lemma toggle_duplicate_rows_witness :
  (evaluate (by_slug "tea") (shop_product duplicate_cart_db) = {[7%N := example_product]}
   ∧ (2 ≤ size (evaluate (cart_row 1%N 7%N) (profiles_orderitem duplicate_cart_db)))%nat)
  ∧ (CartView_post (mkEnv 3 102%N) 1%N (Some (mkToggleCartItem "tea" 0)) duplicate_cart_db
    = (Raise MultipleObjectsReturned, duplicate_cart_db)).
Proof.
  assert (H1 : evaluate (by_slug "tea") (shop_product duplicate_cart_db) = {[7%N := example_product]})
    by (by vm_compute).
  assert (H2 : (2 ≤ size (evaluate (cart_row 1%N 7%N) (profiles_orderitem duplicate_cart_db)))%nat)
    by (vm_compute; lia).
  split; [done|].
  exact (toggle_duplicate_rows (mkEnv 3 102%N) 1%N "tea" 0 7%N example_product duplicate_cart_db H1 H2).
Defined.

(** X11 on the example: user 1 puts 3 of "tea" in the cart and reads the
    cart. *)
Lemma cart_get_lists_toggled_item_witness :
  (0 < 3
   ∧ evaluate (by_slug "tea") (shop_product shop_db) = {[7%N := example_product]}
   ∧ (size (evaluate (cart_row 1%N 7%N) (profiles_orderitem shop_db)) ≤ 1)%nat
   ∧ rows (profiles_orderitem shop_db) !! uuid4 (mkEnv 1 100%N) = None)
  ∧ (∃ resp s1 k r items,
      CartView_post (mkEnv 1 100%N) 1%N (Some (mkToggleCartItem "tea" 3)) shop_db = (Return resp, s1)
      ∧ item_payload resp = Some (OrderItemData (k, r))
      ∧ CartView_get 1%N s1 = (Return (mkReadResponse (OrderItems items) 200), s1)
      ∧ (k, r) ∈ items
      ∧ OrderItem.quantity (fields r) = 3
      ∧ OrderItem.product (fields r) = 7%N
      ∧ (∀ x, x ∈ items → OrderItem.product (fields x.2) = 7%N → x = (k, r))).
Proof.
  assert (H1 : 0 < 3)
    by (lia).
  assert (H2 : evaluate (by_slug "tea") (shop_product shop_db) = {[7%N := example_product]})
    by (by vm_compute).
  assert (H3 : (size (evaluate (cart_row 1%N 7%N) (profiles_orderitem shop_db)) ≤ 1)%nat)
    by (vm_compute; lia).
  assert (H4 : rows (profiles_orderitem shop_db) !! uuid4 (mkEnv 1 100%N) = None)
    by (by vm_compute).
  split; [done|].
  exact (cart_get_lists_toggled_item (mkEnv 1 100%N) 1%N "tea" 3 7%N example_product shop_db H1 H2 H3 H4).
Defined.

(** X12 on the example: user 1 puts 3 of "tea" in the cart and takes it
    out. *)
Lemma toggle_then_zero_restores_witness :
  (0 < 3
   ∧ evaluate (by_slug "tea") (shop_product shop_db) = {[7%N := example_product]}
   ∧ evaluate (cart_row 1%N 7%N) (profiles_orderitem shop_db) = ∅
   ∧ rows (profiles_orderitem shop_db) !! uuid4 (mkEnv 1 100%N) = None)
  ∧ (∃ resp1 s1 resp2 s2,
      CartView_post (mkEnv 1 100%N) 1%N (Some (mkToggleCartItem "tea" 3)) shop_db = (Return resp1, s1)
      ∧ CartView_post (mkEnv 2 101%N) 1%N (Some (mkToggleCartItem "tea" 0)) s1 = (Return resp2, s2)
      ∧ toggle_kind resp1 = Some Added
      ∧ toggle_kind resp2 = Some Removed
      ∧ persisted s2 = persisted shop_db).
Proof.
  assert (H1 : 0 < 3)
    by (lia).
  assert (H2 : evaluate (by_slug "tea") (shop_product shop_db) = {[7%N := example_product]})
    by (by vm_compute).
  assert (H3 : evaluate (cart_row 1%N 7%N) (profiles_orderitem shop_db) = ∅)
    by (by vm_compute).
  assert (H4 : rows (profiles_orderitem shop_db) !! uuid4 (mkEnv 1 100%N) = None)
    by (by vm_compute).
  split; [done|].
  exact (toggle_then_zero_restores (mkEnv 1 100%N) (mkEnv 2 101%N) 1%N "tea" 3 7%N example_product shop_db H1 H2 H3 H4).
Defined.

(** X13 on the example: user 1 checks out the cart of [cart_db], reads
    the cart and checks out again. *)
Lemma checkout_consumes_cart_witness :
  (evaluate (cart 1%N) (profiles_orderitem cart_db) ≠ ∅
   ∧ rows (profiles_shippingaddress cart_db) !! 9%N = Some example_address
   ∧ rows (profiles_order cart_db) !! uuid4 (mkEnv 3 102%N) = None)
  ∧ (∃ resp s',
      CheckoutView_post (mkEnv 3 102%N) 1%N (Some (mkCheckout (Some 9%N))) cart_db = (Return resp, s')
      ∧ status resp = 200
      ∧ CartView_get 1%N s' = (Return (mkReadResponse (OrderItems []) 200), s')
      ∧ CheckoutView_post (mkEnv 4 103%N) 1%N None s'
        = (Return (mkResponse (Message "No Items in Cart") 404), s')).
Proof.
  assert (H1 : evaluate (cart 1%N) (profiles_orderitem cart_db) ≠ ∅)
    by (by vm_compute).
  assert (H2 : rows (profiles_shippingaddress cart_db) !! 9%N = Some example_address)
    by (by vm_compute).
  assert (H3 : rows (profiles_order cart_db) !! uuid4 (mkEnv 3 102%N) = None)
    by (by vm_compute).
  split; [done|].
  exact (checkout_consumes_cart (mkEnv 3 102%N) (mkEnv 4 103%N) 1%N 9%N example_address None cart_db H1 H2 H3).
Defined.

(** X14 on the example: user 1 checks out the cart of [cart_db]. *)
Lemma checkout_order_items_witness :
  (evaluate (cart 1%N) (profiles_orderitem cart_db) ≠ ∅
   ∧ rows (profiles_shippingaddress cart_db) !! 9%N = Some example_address
   ∧ rows (profiles_order cart_db) !! uuid4 (mkEnv 3 102%N) = None
   ∧ evaluate (of_order (uuid4 (mkEnv 3 102%N))) (profiles_orderitem cart_db) = ∅)
  ∧ (∃ resp s',
      CheckoutView_post (mkEnv 3 102%N) 1%N (Some (mkCheckout (Some 9%N))) cart_db = (Return resp, s')
      ∧ evaluate (of_order (uuid4 (mkEnv 3 102%N))) (profiles_orderitem s')
        = set_fields (OrderItem.set_order (Some (uuid4 (mkEnv 3 102%N))))
          <$> evaluate (cart 1%N) (profiles_orderitem cart_db)
      ∧ size (evaluate (of_order (uuid4 (mkEnv 3 102%N))) (profiles_orderitem s'))
        = size (evaluate (cart 1%N) (profiles_orderitem cart_db))).
Proof.
  assert (H1 : evaluate (cart 1%N) (profiles_orderitem cart_db) ≠ ∅)
    by (by vm_compute).
  assert (H2 : rows (profiles_shippingaddress cart_db) !! 9%N = Some example_address)
    by (by vm_compute).
  assert (H3 : rows (profiles_order cart_db) !! uuid4 (mkEnv 3 102%N) = None)
    by (by vm_compute).
  assert (H4 : evaluate (of_order (uuid4 (mkEnv 3 102%N))) (profiles_orderitem cart_db) = ∅)
    by (by vm_compute).
  split; [done|].
  exact (checkout_order_items (mkEnv 3 102%N) 1%N 9%N example_address cart_db H1 H2 H3 H4).
Defined.

(** X15 on the example: user 1 reviews "tea" and deletes the review. *)
Lemma review_post_then_delete_restores_witness :
  (rows (shop_product shop_db) !! 7%N = Some example_product
   ∧ evaluate (review_of 1%N 7%N) (shop_review shop_db) = ∅
   ∧ rows (shop_review shop_db) !! uuid4 (mkEnv 1 100%N) = None)
  ∧ (∃ r s1 resp2 s2,
      ReviewViewsPost_post (mkEnv 1 100%N) 1%N (Some (mkReviewRequest 7%N 2 "bitter")) shop_db
      = (Return (mkResponse (Serialized (ReviewData (uuid4 (mkEnv 1 100%N), r))) 201), s1)
      ∧ ReviewViewsDelete_delete 1%N (uuid4 (mkEnv 1 100%N)) s1 = (Return resp2, s2)
      ∧ status resp2 = 200
      ∧ persisted s2 = persisted shop_db).
Proof.
  assert (H1 : rows (shop_product shop_db) !! 7%N = Some example_product)
    by (by vm_compute).
  assert (H2 : evaluate (review_of 1%N 7%N) (shop_review shop_db) = ∅)
    by (by vm_compute).
  assert (H3 : rows (shop_review shop_db) !! uuid4 (mkEnv 1 100%N) = None)
    by (by vm_compute).
  split; [done|].
  exact (review_post_then_delete_restores (mkEnv 1 100%N) 1%N 7%N example_product 2 "bitter" shop_db H1 H2 H3).
Defined.

(** X17 on the example: user 1 gives "tea" its first review. *)
Lemma reviews_get_after_first_review_witness :
  (rows (shop_product shop_db) !! 7%N = Some example_product
   ∧ evaluate (reviews_of_product 7%N) (shop_review shop_db) = ∅
   ∧ rows (shop_review shop_db) !! uuid4 (mkEnv 1 100%N) = None)
  ∧ (∃ r s1,
      ReviewViewsPost_post (mkEnv 1 100%N) 1%N (Some (mkReviewRequest 7%N 2 "bitter")) shop_db
      = (Return (mkResponse (Serialized (ReviewData (uuid4 (mkEnv 1 100%N), r))) 201), s1)
      ∧ ReviewViewsGet_get 7%N s1
        = (Return (mkReadResponse (Reviews [(uuid4 (mkEnv 1 100%N), r)]
                                     (Some (QArith_base.Qmake 2 1))) 200), s1)).
Proof.
  assert (H1 : rows (shop_product shop_db) !! 7%N = Some example_product)
    by (by vm_compute).
  assert (H2 : evaluate (reviews_of_product 7%N) (shop_review shop_db) = ∅)
    by (by vm_compute).
  assert (H3 : rows (shop_review shop_db) !! uuid4 (mkEnv 1 100%N) = None)
    by (by vm_compute).
  split; [done|].
  exact (reviews_get_after_first_review (mkEnv 1 100%N) 1%N 7%N example_product 2 "bitter" shop_db H1 H2 H3).
Defined.

(** X21 on the example: [ordered_db], which holds the order 102, after
    user 1 puts "tea" in the cart again. *)
Lemma reachable_catalog_and_orders_kept_witness :
  reachable ordered_db
    (run (mkEnv 4 103%N) (call_CartView_post 1%N (Some (mkToggleCartItem "tea" 2)))
         ordered_db).2
  ∧ (shop_product
       (run (mkEnv 4 103%N) (call_CartView_post 1%N (Some (mkToggleCartItem "tea" 2)))
            ordered_db).2 = shop_product ordered_db
     ∧ profiles_shippingaddress
         (run (mkEnv 4 103%N) (call_CartView_post 1%N (Some (mkToggleCartItem "tea" 2)))
              ordered_db).2 = profiles_shippingaddress ordered_db
     ∧ ∀ k o, rows (profiles_order ordered_db) !! k = Some o →
              rows (profiles_order
                      (run (mkEnv 4 103%N)
                           (call_CartView_post 1%N (Some (mkToggleCartItem "tea" 2)))
                           ordered_db).2) !! k = Some o).
Proof.
  assert (H1 : reachable ordered_db
                 (run (mkEnv 4 103%N)
                      (call_CartView_post 1%N (Some (mkToggleCartItem "tea" 2)))
                      ordered_db).2)
    by (apply reachable_call, reachable_start).
  split; [done|].
  exact (reachable_catalog_and_orders_kept ordered_db
           (run (mkEnv 4 103%N) (call_CartView_post 1%N (Some (mkToggleCartItem "tea" 2)))
                ordered_db).2 H1).
Defined.

(** X22 on the example: the ordered item of [ordered_db] after user 1
    sets the quantity of its product to 0. *)
Lemma reachable_ordered_items_kept_witness :
  (reachable ordered_db (run (mkEnv 4 103%N) (call_CartView_post 1%N (Some (mkToggleCartItem "tea" 0))) ordered_db).2
   ∧ rows (profiles_orderitem ordered_db) !! 100%N = Some (set_fields (OrderItem.set_order (Some 102%N)) example_item)
   ∧ OrderItem.order (fields (set_fields (OrderItem.set_order (Some 102%N)) example_item)) ≠ None)
  ∧ (rows (profiles_orderitem (run (mkEnv 4 103%N) (call_CartView_post 1%N (Some (mkToggleCartItem "tea" 0))) ordered_db).2) !! 100%N = Some (set_fields (OrderItem.set_order (Some 102%N)) example_item)).
Proof.
  assert (H1 : reachable ordered_db (run (mkEnv 4 103%N) (call_CartView_post 1%N (Some (mkToggleCartItem "tea" 0))) ordered_db).2)
    by (apply reachable_call, reachable_start).
  assert (H2 : rows (profiles_orderitem ordered_db) !! 100%N = Some (set_fields (OrderItem.set_order (Some 102%N)) example_item))
    by (by vm_compute).
  assert (H3 : OrderItem.order (fields (set_fields (OrderItem.set_order (Some 102%N)) example_item)) ≠ None)
    by (by vm_compute).
  split; [done|].
  exact (reachable_ordered_items_kept ordered_db (run (mkEnv 4 103%N) (call_CartView_post 1%N (Some (mkToggleCartItem "tea" 0))) ordered_db).2 100%N (set_fields (OrderItem.set_order (Some 102%N)) example_item) H1 H2 H3).
Defined.

(** X23 on the example: [ordered_db], whose item references the stored
    order 102, after user 1 puts "tea" in the cart again. *)
Lemma reachable_order_references_valid_witness :
  (order_references_valid ordered_db
   ∧ reachable ordered_db
       (run (mkEnv 4 103%N) (call_CartView_post 1%N (Some (mkToggleCartItem "tea" 2)))
            ordered_db).2)
  ∧ order_references_valid
      (run (mkEnv 4 103%N) (call_CartView_post 1%N (Some (mkToggleCartItem "tea" 2)))
           ordered_db).2.
Proof.
  assert (H1 : order_references_valid ordered_db).
  { intros pk r order_id Hr Horder.
    assert (E : rows (profiles_orderitem ordered_db)
                = {[100%N := set_fields (OrderItem.set_order (Some 102%N)) example_item]})
      by (by vm_compute).
    rewrite E in Hr. apply lookup_singleton_Some in Hr as [_ <-].
    injection Horder as <-. vm_compute. eauto. }
  assert (H2 : reachable ordered_db
                 (run (mkEnv 4 103%N)
                      (call_CartView_post 1%N (Some (mkToggleCartItem "tea" 2)))
                      ordered_db).2)
    by (apply reachable_call, reachable_start).
  split; [done|].
  exact (reachable_order_references_valid ordered_db
           (run (mkEnv 4 103%N) (call_CartView_post 1%N (Some (mkToggleCartItem "tea" 2)))
                ordered_db).2 H1 H2).
Defined.
